(** * Alice Telegram bot: authorization gate, completion caller, quote formatter

    A shallow embedding of the two variants of [render_start.py]:

    - [Richer]  is [src/code/render_start.py]  (AI chat, stock quotes, every
      handler behind the authorization check);
    - [Simpler] is [src/render_start.py]       (static replies and an echo).

    Python values that come out of [response.json()] are an inductive type
    [pyval]; the partial operations of Python ([d.get], [x[0]], [a - b],
    [a / b]) return a [result] so that an exception is a value of the model
    and [try ... except Exception] is a function on it.  What a handler does
    to the outside (replies, edits, HTTP requests, log lines) is recorded as
    a trace of [event]s next to the returned value.

    Numbers are kept abstract (class [Number]): JSON numbers reach the code
    as Python [int] or [float], their arithmetic can raise, and nothing
    proved here depends on how IEEE doubles round.  [Exact] at the end of
    the definitions instantiates the class with integers and exact
    rationals so that everything can be evaluated. *)

From Stdlib Require Import String Ascii List ZArith QArith Bool Lia DecimalString.
Import ListNotations.
Open Scope string_scope.
Open Scope Z_scope.

(* ================================================================== *)
(** ** Text *)

Definition nl : string := String (ascii_of_nat 10) EmptyString.
Definition dquote : string := String (ascii_of_nat 34) EmptyString.

(** The lines of a Python string literal, joined by newlines. *)
Fixpoint unlines (ls : list string) : string :=
  match ls with
  | [] => ""
  | [l] => l
  | l :: rest => l ++ nl ++ unlines rest
  end.

(** [str(n)] for a Python [int]. *)
Definition str_int (z : Z) : string := NilZero.string_of_int (Z.to_int z).

(** [needle in hay]. *)
Definition contains (needle hay : string) : Prop :=
  exists pre post, hay = pre ++ needle ++ post.

(** A 2xx status. *)
Definition is_2xx (status : Z) : bool := (200 <=? status) && (status <? 300).

(** [not s] for [s : Optional[str]]: [None] and [""] are falsy. *)
Definition truthy (o : option string) : bool :=
  match o with
  | Some s => negb (s =? "")%string
  | None => false
  end.

(** [s[:n]] on a string whose characters are single bytes (bot tokens are). *)
Definition take (n : nat) (s : string) : string := substring 0 n s.

(* ================================================================== *)
(** ** Exceptions and results *)

Record exn : Type := mkExn { exn_type : string; exn_str : string }.

Inductive result (A : Type) : Type :=
| Ok (a : A)
| Raise (e : exn).
Arguments Ok {A} a.
Arguments Raise {A} e.

Definition IndexError (m : string) := mkExn "IndexError" m.
Definition KeyError (m : string) := mkExn "KeyError" m.
Definition TypeError (m : string) := mkExn "TypeError" m.
Definition AttributeError (m : string) := mkExn "AttributeError" m.
Definition ZeroDivisionError (m : string) := mkExn "ZeroDivisionError" m.
Definition OverflowError (m : string) := mkExn "OverflowError" m.

(* ================================================================== *)
(** ** Python numbers *)

(** What the code asks of a number: the literals [0] and [100], [-], [*],
    [/], [==], [<], [str(x)] and the format [{x:+.2f}].  The arithmetic and
    the format can raise (an [int] beyond the range of [float] gives
    [OverflowError]); comparing, and [str] of a number that [json.loads]
    produced, do not.  [num_div] is asked for a divisor that is not zero
    only.  [num_type] is the type's name as it shows in a [TypeError]
    message. *)
Class Number : Type := {
  num : Type;
  num_of_Z : Z -> num;
  num_sub : num -> num -> result num;
  num_mul : num -> num -> result num;
  num_div : num -> num -> result num;
  num_eqb : num -> num -> bool;
  num_ltb : num -> num -> bool;
  num_str : num -> string;
  num_fmt_signed2 : num -> result string;
  num_type : num -> string
}.

(* ================================================================== *)
(** ** Python values *)

Section Values.
Context {N : Number}.

#[local] Set Warnings "-register-all".

(** The values [json.loads] produces. A [dict] is kept as an association
    list; its keys are distinct in Python, and lookup takes the first. *)
Inductive pyval : Type :=
| PNone
| PBool (b : bool)
| PNum (n : num)
| PStr (s : string)
| PList (l : list pyval)
| PDict (d : list (string * pyval)).

Definition type_name (v : pyval) : string :=
  match v with
  | PNone => "NoneType"
  | PBool _ => "bool"
  | PNum n => num_type n
  | PStr _ => "str"
  | PList _ => "list"
  | PDict _ => "dict"
  end.

Fixpoint lookup (k : string) (d : list (string * pyval)) : option pyval :=
  match d with
  | [] => None
  | (k', v) :: rest => if (k =? k')%string then Some v else lookup k rest
  end.

(** [v.get(k, default)]: only a [dict] has the method. *)
Definition py_get (v : pyval) (k : string) (default : pyval) : result pyval :=
  match v with
  | PDict d =>
      match lookup k d with
      | Some x => Ok x
      | None => Ok default
      end
  | _ => Raise (AttributeError
                  ("'" ++ type_name v ++ "' object has no attribute 'get'"))
  end.

(** [v[0]]. A [dict] from JSON has string keys only, so [0] is never a key. *)
Definition py_index0 (v : pyval) : result pyval :=
  match v with
  | PList (x :: _) => Ok x
  | PList [] => Raise (IndexError "list index out of range")
  | PStr (String c _) => Ok (PStr (String c EmptyString))
  | PStr EmptyString => Raise (IndexError "string index out of range")
  | PDict _ => Raise (KeyError "0")
  | _ => Raise (TypeError
                  ("'" ++ type_name v ++ "' object is not subscriptable"))
  end.

(** The number a value stands for in arithmetic: [bool] is a subclass of
    [int]. *)
Definition as_num (v : pyval) : option num :=
  match v with
  | PNum n => Some n
  | PBool true => Some (num_of_Z 1)
  | PBool false => Some (num_of_Z 0)
  | _ => None
  end.

Definition unsupported (op : string) (a b : pyval) : exn :=
  TypeError ("unsupported operand type(s) for " ++ op ++ ": '"
             ++ type_name a ++ "' and '" ++ type_name b ++ "'").

(** [a - b]. *)
Definition py_sub (a b : pyval) : result num :=
  match as_num a, as_num b with
  | Some x, Some y => num_sub x y
  | _, _ => Raise (unsupported "-" a b)
  end.

(** [a / b]. *)
Definition py_div (a b : pyval) : result num :=
  match as_num a, as_num b with
  | Some x, Some y =>
      if num_eqb y (num_of_Z 0)
      then Raise (ZeroDivisionError "division by zero")
      else num_div x y
  | _, _ => Raise (unsupported "/" a b)
  end.

(** [v != s] for a string literal [s]. *)
Definition py_ne_str (v : pyval) (s : string) : bool :=
  match v with
  | PStr s' => negb (s' =? s)%string
  | _ => true
  end.

(** [v != 0]. *)
Definition py_ne_zero (v : pyval) : bool :=
  match as_num v with
  | Some x => negb (num_eqb x (num_of_Z 0))
  | None => true
  end.

End Values.

(** What the text of a value needs from the interpreter: [repr] of a list
    or dict (for [str] of one) and [str.upper]. *)
Class Runtime {N : Number} : Type := {
  py_repr : pyval -> string;
  str_upper : string -> string
}.

(* ================================================================== *)
(** ** Effects *)

Section Effects.
Context {N : Number} {R : Runtime}.

(** [str(v)], which is also what [{v}] puts in an f-string. *)
Definition py_str (v : pyval) : string :=
  match v with
  | PNone => "None"
  | PBool true => "True"
  | PBool false => "False"
  | PNum n => num_str n
  | PStr s => s
  | PList _ | PDict _ => py_repr v
  end.

(** What a handler does to the outside. [Reply] is
    [update.message.reply_text], [Edit] is [edit_text] on the message a
    reply returned, [Post] and [Get] are the requests of [http_client],
    [Log] is a line of [logger]. *)
Inductive event : Type :=
| Reply (text : string) (parse_mode : option string)
| Edit (text : pyval)
| Post (url : string) (headers : list (string * string)) (json : pyval)
| Get (url : string)
| Log (level : string) (msg : string).

Definition is_outbound (e : event) : bool :=
  match e with
  | Post _ _ _ | Get _ => true
  | _ => false
  end.

(** The calls to the completion or quote endpoint in a trace. *)
Definition outbound (t : list event) : list event := filter is_outbound t.

(** A computation returns or raises, and leaves a trace. *)
Definition M (A : Type) : Type := (result A * list event)%type.

Definition ret {A} (a : A) : M A := (Ok a, []).

Definition bind {A B} (m : M A) (k : A -> M B) : M B :=
  match m with
  | (Ok a, t) => let (r, t') := k a in (r, (t ++ t')%list)
  | (Raise e, t) => (Raise e, t)
  end.

(** [try: m  except Exception as e: h e]. *)
Definition try_except {A} (m : M A) (h : exn -> M A) : M A :=
  match m with
  | (Raise e, t) => let (r, t') := h e in (r, (t ++ t')%list)
  | (Ok a, t) => (Ok a, t)
  end.

Definition lift {A} (r : result A) : M A := (r, []).
Definition emit (e : event) : M unit := (Ok tt, [e]).

Definition returned {A} (m : M A) : result A := fst m.
Definition trace {A} (m : M A) : list event := snd m.

(** An HTTP response: [json] is what [response.json()] gives, a value or
    the exception of a body that does not decode. *)
Record response : Type := {
  status_code : Z;
  text : string;
  json : result pyval
}.

(** The world a handler runs in: what the two endpoints answer (a response,
    or the exception the transport raises) and the wall clock, already
    formatted by [strftime('%Y-%m-%d %H:%M:%S')]. *)
Record world : Type := {
  post : string -> list (string * string) -> pyval -> result response;
  get : string -> result response;
  now : string
}.

Definition http_post (w : world) (url : string)
    (headers : list (string * string)) (body : pyval) : M response :=
  (post w url headers body, [Post url headers body]).

Definition http_get (w : world) (url : string) : M response :=
  (get w url, [Get url]).

Definition reply_text (text : string) (parse_mode : option string) : M unit :=
  emit (Reply text parse_mode).

Definition edit_text (text : pyval) : M unit := emit (Edit text).

Definition log_info (msg : string) : M unit := emit (Log "INFO" msg).
Definition log_error (msg : string) : M unit := emit (Log "ERROR" msg).

End Effects.

Notation "x <- m ;; k" := (bind m (fun x => k))
  (at level 61, m at next level, right associativity).
Notation "m ;;; k" := (bind m (fun _ => k))
  (at level 61, right associativity).

(** An incoming update, after the library's filters looked at it:
    [command] is the command name, in the lower case in which the library
    compares it with the registered names, and [context.args] when the text
    starts with a bot command; [None] for plain text. *)
Record update : Type := {
  user_id : Z;
  message_text : string;
  command : option (string * list string)
}.

(** How a process start ends: [sys.exit(code)], or the module is loaded and
    holds its configuration. *)
Inductive startup (C : Type) : Type :=
| Exit (code : Z)
| Loaded (cfg : C).
Arguments Exit {C} code.
Arguments Loaded {C} cfg.

(** [os.getenv]. *)
Definition environ : Type := string -> option string.

Definition getenv_default (env : environ) (k default : string) : string :=
  match env k with
  | Some v => v
  | None => default
  end.

Definition rbind {A B} (r : result A) (k : A -> result B) : result B :=
  match r with
  | Ok a => k a
  | Raise e => Raise e
  end.

Notation "x <~ r ;; k" := (rbind r (fun x => k))
  (at level 61, r at next level, right associativity).

Definition unwrap (o : option string) : string :=
  match o with
  | Some s => s
  | None => ""
  end.

(* ================================================================== *)
(** ** The richer variant: [src/code/render_start.py] *)

Module Richer.
Section Bot.
Context {N : Number} {R : Runtime}.

(** The module's globals, lines 25-28, once the checks of lines 31-37 have
    passed. *)
Record config : Type := {
  BOT_TOKEN : string;
  CHAT_ID : string;
  NEBULA_API_KEY : string;
  NEBULA_API_URL : string
}.

(** Lines 25-41: read the environment, exit with status 1 when the token or
    the authorized identity is unset or empty. *)
Definition load (env : environ) : startup config * list event :=
  let bot_token := env "TELEGRAM_BOT_TOKEN" in
  let chat_id := env "TELEGRAM_CHAT_ID" in
  let nebula_api_key := getenv_default env "NEBULA_API_KEY" "" in
  let nebula_api_url :=
    getenv_default env "NEBULA_API_URL" "https://api.nebula.gg" in
  if negb (truthy bot_token) then
    (Exit 1, [Log "ERROR" "❌ 錯誤: 未設定 TELEGRAM_BOT_TOKEN"])
  else if negb (truthy chat_id) then
    (Exit 1, [Log "ERROR" "❌ 錯誤: 未設定 TELEGRAM_CHAT_ID"])
  else
    (Loaded {| BOT_TOKEN := unwrap bot_token;
               CHAT_ID := unwrap chat_id;
               NEBULA_API_KEY := nebula_api_key;
               NEBULA_API_URL := nebula_api_url |},
     [Log "INFO" "🤖 Telegram Bot 啟動中...";
      Log "INFO" ("✅ Bot Token: " ++ take 20 (unwrap bot_token) ++ "...");
      Log "INFO" ("✅ 授權使用者: " ++ unwrap chat_id)]).

(* ------------------------------------------------------------------ *)
(** *** Completion caller, lines 49-89 *)

Definition advisory : string :=
  unlines [
    "⚠️ 尚未設定 Nebula API Key，無法使用 AI 對話功能。";
    "";
    "請在 Render 環境變數中設定 NEBULA_API_KEY。" ].

Definition no_content : string := "無法取得回應".

(** Which [return] of [call_nebula_api] was taken, with what it returns. *)
Inductive completion : Type :=
| Unavailable                 (* line 60 *)
| Content (v : pyval)         (* line 82 *)
| HttpFailure (status : Z)    (* line 85 *)
| Failed (e : exn).           (* line 89 *)

Definition completion_value (c : completion) : pyval :=
  match c with
  | Unavailable => PStr advisory
  | Content v => v
  | HttpFailure status =>
      PStr ("❌ API 呼叫失敗 (HTTP " ++ str_int status ++ ")")
  | Failed e => PStr ("❌ 發生錯誤: " ++ exn_str e)
  end.

(** Line 82:
    [data.get("choices", [{}])[0].get("message", {}).get("content", ...)]. *)
Definition first_content (data : pyval) : result pyval :=
  choices <~ py_get data "choices" (PList [PDict []]) ;;
  choice <~ py_index0 choices ;;
  message <~ py_get choice "message" (PDict []) ;;
  py_get message "content" (PStr no_content).

Definition completion_request (message : string) : pyval :=
  PDict [("messages", PList [PDict [("role", PStr "user");
                                    ("content", PStr message)]]);
         ("stream", PBool false)].

Definition completion_url (cfg : config) : string :=
  NEBULA_API_URL cfg ++ "/v1/chat/completions".

Definition completion_headers (cfg : config) : list (string * string) :=
  [("Authorization", "Bearer " ++ NEBULA_API_KEY cfg);
   ("Content-Type", "application/json")].

(** Lines 81-82. *)
Definition read_content (response : response) : result pyval :=
  data <~ json response ;;
  first_content data.

(** The body of [call_nebula_api], each [return] tagged with its branch. *)
Definition complete (cfg : config) (w : world) (message : string)
    : M completion :=
  if (NEBULA_API_KEY cfg =? "")%string then
    ret Unavailable
  else
    try_except
      (response <- http_post w (completion_url cfg) (completion_headers cfg)
                     (completion_request message) ;;
       if status_code response =? 200 then
         content <- lift (read_content response) ;;
         ret (Content content)
       else
         log_error ("Nebula API 錯誤: " ++ str_int (status_code response)
                    ++ " - " ++ text response) ;;;
         ret (HttpFailure (status_code response)))
      (fun e =>
         log_error ("Nebula API 異常: " ++ exn_str e) ;;;
         ret (Failed e)).

Definition call_nebula_api (cfg : config) (w : world) (message : string)
    : M pyval :=
  c <- complete cfg w message ;;
  ret (completion_value c).

(** A failure sentinel, as against text taken from a response. *)
Definition is_failure (c : completion) : bool :=
  match c with
  | Content _ => false
  | Unavailable | HttpFailure _ | Failed _ => true
  end.

(* ------------------------------------------------------------------ *)
(** *** Quote formatter, lines 94-138 *)

Record quote : Type := {
  symbol : pyval;
  price : pyval;
  prev_close : pyval;
  change : num;
  change_percent : num;
  currency : pyval
}.

Definition absent : pyval := PStr "N/A".

(** What [meta.get(key, "N/A")] gives for a field that holds a number or is
    missing. *)
Definition field_value (o : option num) : pyval :=
  match o with
  | Some n => PNum n
  | None => absent
  end.

(** The spec's rule for [change] (4.3, steps 3 and 4), for a price [p] and
    a previous close [c] that are each a number or missing: the difference
    when both are there, else 0. *)
Definition spec_change (p c : option num) : result num :=
  match p, c with
  | Some x, Some y => num_sub x y
  | _, _ => Ok (num_of_Z 0)
  end.

(** The spec's rule for [change_percent]: [change / previous_close * 100]
    when the previous close is there and not zero, else 0. *)
Definition spec_change_percent (change : num) (c : option num) : result num :=
  match c with
  | Some y =>
      if num_eqb y (num_of_Z 0) then Ok (num_of_Z 0)
      else (ratio <~ num_div change y ;; num_mul ratio (num_of_Z 100))
  | None => Ok (num_of_Z 0)
  end.

(** Lines 111-112. *)
Definition quote_meta (data : pyval) : result pyval :=
  chart <~ py_get data "chart" (PDict []) ;;
  results <~ py_get chart "result" (PList [PDict []]) ;;
  result0 <~ py_index0 results ;;
  py_get result0 "meta" (PDict []).

(** Lines 114-120. *)
Definition quote_of_meta (stock_code : string) (meta : pyval) : result quote :=
  price <~ py_get meta "regularMarketPrice" absent ;;
  prev_close <~ py_get meta "previousClose" absent ;;
  change <~ (if py_ne_str price "N/A" && py_ne_str prev_close "N/A"
             then py_sub price prev_close
             else Ok (num_of_Z 0)) ;;
  change_percent <~ (if py_ne_str prev_close "N/A" && py_ne_zero prev_close
                     then (ratio <~ py_div (PNum change) prev_close ;;
                           num_mul ratio (num_of_Z 100))
                     else Ok (num_of_Z 0)) ;;
  symbol <~ py_get meta "symbol" (PStr stock_code) ;;
  currency <~ py_get meta "currency" (PStr "TWD") ;;
  Ok {| symbol := symbol; price := price; prev_close := prev_close;
        change := change; change_percent := change_percent;
        currency := currency |}.

Definition read_quote (stock_code : string) (data : pyval) : result quote :=
  meta <~ quote_meta data ;;
  quote_of_meta stock_code meta.

(** Line 123. *)
Definition change_emoji (change : num) : string :=
  if num_ltb change (num_of_Z 0) then "🔴"
  else if num_ltb (num_of_Z 0) change then "🟢"
  else "⚪".

(** Lines 125-132. The two [:+.2f] fields are the parts of the f-string
    that can raise. *)
Definition render_quote (q : quote) (time : string) : result string :=
  change_text <~ num_fmt_signed2 (change q) ;;
  percent_text <~ num_fmt_signed2 (change_percent q) ;;
  Ok (unlines [
        "";
        "📊 **" ++ py_str (symbol q) ++ "** 即時資訊";
        "";
        "💰 目前價格: " ++ py_str (price q) ++ " " ++ py_str (currency q);
        "📉 昨日收盤: " ++ py_str (prev_close q) ++ " " ++ py_str (currency q);
        change_emoji (change q) ++ " 漲跌: " ++ change_text
          ++ " (" ++ percent_text ++ "%)";
        "🕐 更新時間: " ++ time;
        "" ]).

Definition quote_url (stock_code : string) : string :=
  "https://query1.finance.yahoo.com/v8/finance/chart/" ++ stock_code.

Definition get_stock_price (w : world) (stock_code : string) : M string :=
  try_except
    (response <- http_get w (quote_url stock_code) ;;
     if status_code response =? 200 then
       data <- lift (json response) ;;
       q <- lift (read_quote stock_code data) ;;
       block <- lift (render_quote q (now w)) ;;
       ret block
     else
       ret ("❌ 無法取得 " ++ stock_code ++ " 的股價資訊（HTTP "
            ++ str_int (status_code response) ++ "）"))
    (fun e =>
       log_error ("股價查詢錯誤: " ++ exn_str e) ;;;
       ret ("❌ 查詢失敗: " ++ exn_str e)).

(* ------------------------------------------------------------------ *)
(** *** Handlers, lines 143-356 *)

Definition denial : string := "❌ 抱歉，你沒有使用此 Bot 的權限。".

Definition handler : Type := config -> world -> update -> list string -> M unit.

Definition welcome_message : string :=
  unlines [
    "";
    "👋 歡迎使用 Alice AI 助理！";
    "";
    "🤖 **我能做什麼？**";
    "";
    "📊 **股價查詢**";
    "• /stock 2330.TW - 查詢台積電股價";
    "• /stock AAPL - 查詢蘋果股價";
    "• /stock ^TWII - 查詢台灣加權指數";
    "";
    "💬 **AI 對話**";
    "• 直接輸入任何問題，我會用 AI 回答";
    "• 例如: " ++ dquote ++ "台積電今天表現如何？" ++ dquote ++ "";
    "• 例如: " ++ dquote ++ "幫我分析美股趨勢" ++ dquote ++ "";
    "";
    "📈 **持股管理** (即將推出)";
    "• /portfolio - 查看持股資訊";
    "• /report - 查看報告推送時間";
    "";
    "❓ **其他指令**";
    "• /help - 顯示使用說明";
    "• /ping - 測試 Bot 狀態";
    "";
    "💡 **提示**: 你可以直接問我任何問題！";
    "" ].

Definition start_command : handler := fun cfg w update args =>
  let user := str_int (user_id update) in
  if negb (user =? CHAT_ID cfg)%string then
    reply_text denial None
  else
    reply_text welcome_message None.

Definition help_text : string :=
  unlines [
    "";
    "📚 **使用說明**";
    "";
    "**基本指令**";
    "/start - 顯示歡迎訊息";
    "/help - 顯示此說明";
    "/ping - 測試 Bot 狀態";
    "";
    "**股價查詢**";
    "/stock <代碼> - 查詢股票即時價格";
    "";
    "支援的股票代碼格式:";
    "• 台股: 2330.TW (台積電)";
    "• 美股: AAPL (蘋果)";
    "• 指數: ^TWII (台灣加權), ^DJI (道瓊)";
    "";
    "範例:";
    "/stock 2330.TW";
    "/stock AAPL";
    "/stock ^TWII";
    "";
    "**AI 對話**";
    "直接輸入訊息即可與 AI 對話:";
    "• " ++ dquote ++ "台積電今天表現如何？" ++ dquote ++ "";
    "• " ++ dquote ++ "美股趨勢分析" ++ dquote ++ "";
    "• " ++ dquote ++ "幫我解釋什麼是 ETF" ++ dquote ++ "";
    "";
    "**持股管理** (開發中)";
    "/portfolio - 查看持股明細";
    "/report - 查看報告推送設定";
    "";
    "**自動推送** (計畫中)";
    "• 每日 06:30 - 台美財經日報";
    "• 每日 07:00 - 持股損益更新";
    "• 週六 07:00 - 每週投資週報";
    "";
    "有問題嗎？直接問我就對了！😊";
    "" ].

Definition help_command : handler := fun cfg w update args =>
  let user := str_int (user_id update) in
  if negb (user =? CHAT_ID cfg)%string then
    reply_text denial None
  else
    reply_text help_text None.

Definition status_message (cfg : config) (uptime : string) : string :=
  unlines [
    "";
    "🟢 **Bot 狀態: 正常運行中**";
    "";
    "⏰ 當前時間: " ++ uptime;
    "🤖 服務: Telegram Bot";
    "🔗 連接: Nebula API "
      ++ (if (NEBULA_API_KEY cfg =? "")%string then "⚠️ 未設定" else "✅");
    "📡 環境: Render.com Background Worker";
    "";
    "✅ 所有系統正常！";
    "" ].

Definition ping_command : handler := fun cfg w update args =>
  let user := str_int (user_id update) in
  if negb (user =? CHAT_ID cfg)%string then
    reply_text denial None
  else
    reply_text (status_message cfg (now w)) None.

Definition stock_usage : string :=
  unlines [
    "❌ 請提供股票代碼";
    "";
    "使用方式: /stock <代碼>";
    "範例:";
    "  /stock 2330.TW (台積電)";
    "  /stock AAPL (蘋果)";
    "  /stock ^TWII (台灣加權指數)" ].

Definition stock_command : handler := fun cfg w update args =>
  let user := str_int (user_id update) in
  if negb (user =? CHAT_ID cfg)%string then
    reply_text denial None
  else
    match args with
    | [] => reply_text stock_usage None
    | arg0 :: _ =>
        let stock_code := str_upper arg0 in
        reply_text ("🔍 正在查詢 " ++ stock_code ++ " 的股價...") None ;;;
        result <- get_stock_price w stock_code ;;
        edit_text (PStr result)
    end.

Definition portfolio_text : string :=
  unlines [
    "📊 **持股管理功能**";
    "";
    "⚠️ 此功能正在開發中...";
    "";
    "未來功能:";
    "• 即時持股損益";
    "• 個股成本分析";
    "• 報酬率統計";
    "• 風險評估";
    "";
    "敬請期待！" ].

Definition portfolio_command : handler := fun cfg w update args =>
  let user := str_int (user_id update) in
  if negb (user =? CHAT_ID cfg)%string then
    reply_text denial None
  else
    reply_text portfolio_text None.

Definition report_text : string :=
  unlines [
    "📨 **自動報告推送時間表**";
    "";
    "⚠️ 推送功能尚未啟用";
    "";
    "計畫推送時間:";
    "• 每日 06:30 - 台美財經日報";
    "• 每日 07:00 - 持股損益更新";
    "• 週六 07:00 - 每週投資週報";
    "";
    "敬請期待！" ].

Definition report_command : handler := fun cfg w update args =>
  let user := str_int (user_id update) in
  if negb (user =? CHAT_ID cfg)%string then
    reply_text denial None
  else
    reply_text report_text None.

Definition handle_message : handler := fun cfg w update args =>
  let user := str_int (user_id update) in
  let message := message_text update in
  if negb (user =? CHAT_ID cfg)%string then
    reply_text denial None
  else
    log_info ("收到訊息: " ++ message ++ " (用戶: " ++ user ++ ")") ;;;
    reply_text "🤔 正在思考..." None ;;;
    response <- call_nebula_api cfg w message ;;
    edit_text response.

Definition error_handler (update : update) (error : exn) : M unit :=
  log_error ("發生錯誤: " ++ exn_str error) ;;;
  reply_text
    (unlines [
       "❌ 發生錯誤: " ++ exn_str error;
       "";
       "請稍後再試，或使用 /help 查看使用說明。" ])
    None.

(* ------------------------------------------------------------------ *)
(** *** Registration and the update loop, lines 359-386 *)

(** The command handlers, in the order [main] registers them. *)
Definition command_handlers : list (string * handler) :=
  [ ("start", start_command);
    ("help", help_command);
    ("ping", ping_command);
    ("stock", stock_command);
    ("portfolio", portfolio_command);
    ("report", report_command) ].

Fixpoint handler_for (name : string) (hs : list (string * handler))
    : option handler :=
  match hs with
  | [] => None
  | (n, h) :: rest => if (name =? n)%string then Some h else handler_for name rest
  end.

(** One update: a command goes to the handler registered under its name (to
    none when the name is unknown, since [~filters.COMMAND] keeps it from
    the message handler), plain text to [handle_message]; what a handler
    raises goes to [error_handler]. *)
Definition process_update (cfg : config) (w : world) (u : update) : M unit :=
  try_except
    (match command u with
     | Some (name, args) =>
         match handler_for name command_handlers with
         | Some h => h cfg w u args
         | None => ret tt
         end
     | None => handle_message cfg w u []
     end)
    (error_handler u).

Fixpoint run_polling (cfg : config) (w : world) (us : list update) : M unit :=
  match us with
  | [] => ret tt
  | u :: rest => process_update cfg w u ;;; run_polling cfg w rest
  end.

(** The process: load the module, then serve the updates the transport
    delivers. *)
Definition main (env : environ) (w : world) (us : list update)
    : startup config * list event :=
  match load env with
  | (Exit code, t) => (Exit code, t)
  | (Loaded cfg, t) =>
      match try_except
              (log_info "🚀 Bot 啟動成功！正在監聽訊息..." ;;;
               run_polling cfg w us)
              (fun e => log_error ("❌ Bot 啟動失敗: " ++ exn_str e) ;;;
                        lift (Raise e))
      with
      | (Ok _, t') => (Loaded cfg, (t ++ t')%list)
      | (Raise _, t') => (Exit 1, (t ++ t')%list)
      end
  end.

End Bot.
End Richer.

(* ================================================================== *)
(** ** The simpler variant: [src/render_start.py] *)

Module Simpler.
Section Bot.
Context {N : Number}.

(** [str(update)] in the log line of [error_handler]; the library's. *)
Variable str_update : update -> string.

(** The module's globals, lines 27-28, once the check of lines 30-32 has
    passed. [CHAT_ID] stays what [os.getenv] gave: it is optional here. *)
Record config : Type := {
  BOT_TOKEN : string;
  CHAT_ID : option string
}.

(** Lines 27-32. *)
Definition load (env : environ) : startup config * list event :=
  let bot_token := env "TELEGRAM_BOT_TOKEN" in
  let chat_id := env "TELEGRAM_CHAT_ID" in
  if negb (truthy bot_token) then
    (Exit 1, [Log "ERROR" "❌ 未設定 TELEGRAM_BOT_TOKEN 環境變數"])
  else
    (Loaded {| BOT_TOKEN := unwrap bot_token; CHAT_ID := chat_id |}, []).

Definition handler : Type := config -> update -> M unit.

Definition Markdown : option string := Some "Markdown".

Definition welcome_message : string :=
  unlines [
    "🎉 *歡迎使用 Alice AI Bot！*";
    "";
    "我是你的 AI 助手，可以協助你：";
    "";
    "📊 *主要功能*";
    "• 查詢持股資訊";
    "• 接收每日財經報告";
    "• 搜尋市場資訊";
    "• 即時問答";
    "";
    "💬 *使用方式*";
    "直接發送訊息給我，或使用以下指令：";
    "";
    "/start - 顯示此訊息";
    "/help - 查看詳細說明";
    "/portfolio - 查看持股";
    "/report - 最新報告";
    "/ping - 測試連線";
    "";
    "現在就試試看吧！" ].

Definition start_command : handler := fun cfg update =>
  reply_text welcome_message Markdown.

Definition help_text : string :=
  unlines [
    "📖 *使用說明*";
    "";
    "*可用指令：*";
    "/start - 開始使用";
    "/help - 查看說明";
    "/portfolio - 查看持股狀況";
    "/report - 查看最新報告";
    "/ping - 測試 Bot 狀態";
    "";
    "*直接對話：*";
    "你可以直接發送訊息給我，例如：";
    "• " ++ dquote ++ "台積電今天股價" ++ dquote ++ "";
    "• " ++ dquote ++ "顯示我的持股" ++ dquote ++ "";
    "• " ++ dquote ++ "美股表現如何" ++ dquote ++ "";
    "";
    "*自動通知：*";
    "我會在以下時間自動推送報告：";
    "• 每天 06:30 - 台美財經日報";
    "• 每天 07:00 - 持股損益更新";
    "• 每週六 07:00 - 週報";
    "";
    "有問題隨時問我！" ].

Definition help_command : handler := fun cfg update =>
  reply_text help_text Markdown.

Definition ping_command : handler := fun cfg update =>
  reply_text "🟢 Bot 正常運行中！" None.

Definition portfolio_text : string :=
  unlines [
    "📊 *持股資訊*";
    "";
    "此功能需要與 Nebula 系統整合。";
    "目前可以接收自動推送的持股報告。";
    "";
    "每日 07:00 會自動更新持股損益。" ].

Definition portfolio_command : handler := fun cfg update =>
  reply_text portfolio_text Markdown.

Definition report_text : string :=
  unlines [
    "📰 *報告查詢*";
    "";
    "自動報告推送時間：";
    "• 06:30 - 每日台美財經日報";
    "• 07:00 - 持股損益更新";
    "• 週六 07:00 - 週報";
    "";
    "最新報告會自動推送到此聊天室。" ].

Definition report_command : handler := fun cfg update =>
  reply_text report_text Markdown.

Definition denial : string := "⚠️ 你沒有使用此 Bot 的權限。".

(** Line 129. *)
Definition echo (user_message : string) : string :=
  "收到你的訊息：「" ++ user_message ++
  unlines [
    "」";
    "";
    "此功能正在開發中，目前支援：";
    "• /help - 查看說明";
    "• /portfolio - 持股資訊";
    "• /report - 報告查詢" ].

(** Line 122: [CHAT_ID and str(user_id) != CHAT_ID]. *)
Definition denied (cfg : config) (user : Z) : bool :=
  truthy (CHAT_ID cfg) && negb (str_int user =? unwrap (CHAT_ID cfg))%string.

Definition handle_message : handler := fun cfg update =>
  let user_message := message_text update in
  let user := user_id update in
  if denied cfg user then
    reply_text denial None
  else
    log_info ("收到訊息: " ++ user_message ++ " (用戶: " ++ str_int user ++ ")") ;;;
    reply_text (echo user_message) None.

Definition error_handler (update : update) (error : exn) : M unit :=
  log_error ("更新 " ++ str_update update ++ " 發生錯誤: " ++ exn_str error).

(** The command handlers, in the order [main] registers them. *)
Definition command_handlers : list (string * handler) :=
  [ ("start", start_command);
    ("help", help_command);
    ("ping", ping_command);
    ("portfolio", portfolio_command);
    ("report", report_command) ].

Fixpoint handler_for (name : string) (hs : list (string * handler))
    : option handler :=
  match hs with
  | [] => None
  | (n, h) :: rest => if (name =? n)%string then Some h else handler_for name rest
  end.

Definition process_update (cfg : config) (u : update) : M unit :=
  try_except
    (match command u with
     | Some (name, _) =>
         match handler_for name command_handlers with
         | Some h => h cfg u
         | None => ret tt
         end
     | None => handle_message cfg u
     end)
    (error_handler u).

Fixpoint run_polling (cfg : config) (us : list update) : M unit :=
  match us with
  | [] => ret tt
  | u :: rest => process_update cfg u ;;; run_polling cfg rest
  end.

(** Lines 139-164, after the module has loaded. *)
Definition main (env : environ) (us : list update)
    : startup config * list event :=
  match load env with
  | (Exit code, t) => (Exit code, t)
  | (Loaded cfg, t) =>
      let m :=
        log_info "🤖 Telegram Bot 啟動中..." ;;;
        log_info ("✅ Bot Token: " ++ take 20 (BOT_TOKEN cfg) ++ "...") ;;;
        (if truthy (CHAT_ID cfg)
         then log_info ("✅ 授權使用者: " ++ unwrap (CHAT_ID cfg))
         else ret tt) ;;;
        log_info "✅ Bot 已啟動，開始監聽訊息..." ;;;
        run_polling cfg us in
      match m with
      | (Ok _, t') => (Loaded cfg, (t ++ t')%list)
      | (Raise _, t') => (Exit 1, (t ++ t')%list)
      end
  end.

End Bot.
End Simpler.

(* ================================================================== *)
(** ** An instance to evaluate with: integers and exact rationals *)

Module Exact.

(** A Python [int], or a [float] held as the exact rational it stands for:
    no rounding to 53 bits, no infinities, no negative zero. An [int] too
    large for a [float] raises where Python's does. *)
Inductive exact : Type :=
| EInt (z : Z)
| EFloat (q : Q).

Definition to_Q (e : exact) : Q :=
  match e with
  | EInt z => inject_Z z
  | EFloat q => q
  end.

(** From [2^1024 - 2^970] on, an [int] rounds past the largest [float]. *)
Definition float_limit : Z := 2 ^ 1024 - 2 ^ 970.

(** [float(e)]. *)
Definition to_float (e : exact) : result Q :=
  match e with
  | EInt z =>
      if Z.abs z <? float_limit then Ok (inject_Z z)
      else Raise (OverflowError "int too large to convert to float")
  | EFloat q => Ok q
  end.

Definition sub (a b : exact) : result exact :=
  match a, b with
  | EInt x, EInt y => Ok (EInt (x - y))
  | _, _ => x <~ to_float a ;; y <~ to_float b ;; Ok (EFloat (Qred (x - y)))
  end.

Definition mul (a b : exact) : result exact :=
  match a, b with
  | EInt x, EInt y => Ok (EInt (x * y))
  | _, _ => x <~ to_float a ;; y <~ to_float b ;; Ok (EFloat (Qred (x * y)))
  end.

(** True division, by a divisor that is not zero. *)
Definition div (a b : exact) : result exact :=
  match a, b with
  | EInt x, EInt y =>
      if float_limit * Z.abs y <=? Z.abs x
      then Raise (OverflowError "integer division result too large for a float")
      else Ok (EFloat (Qred (inject_Z x / inject_Z y)))
  | _, _ => x <~ to_float a ;; y <~ to_float b ;; Ok (EFloat (Qred (x / y)))
  end.

Definition eqb (a b : exact) : bool := Qeq_bool (to_Q a) (to_Q b).
Definition ltb (a b : exact) : bool := negb (Qle_bool (to_Q b) (to_Q a)).

Definition digit (z : Z) : string := str_int (z mod 10).

(** The decimal digits of [r / d] after the point, at most [fuel] of them. *)
Fixpoint frac_digits (fuel : nat) (r d : Z) : string :=
  match fuel with
  | O => ""
  | S fuel' =>
      if r =? 0 then ""
      else digit (r * 10 / d) ++ frac_digits fuel' (r * 10 mod d) d
  end.

(** [str(x)]: an [int] in decimal, a [float] in positional digits (never
    in exponent form), at most 17 after the point. *)
Definition str (e : exact) : string :=
  match e with
  | EInt z => str_int z
  | EFloat q =>
      let n := Z.abs (Qnum q) in
      let d := Zpos (Qden q) in
      let frac := frac_digits 17 (n mod d) d in
      (if Qnum q <? 0 then "-" else "") ++ str_int (n / d) ++ "."
        ++ (if (frac =? "")%string then "0" else frac)
  end.

(** [{x:+.2f}] of a rational: the sign, then [|x|] rounded to hundredths,
    ties to even. *)
Definition fixed2 (q : Q) : string :=
  let n := Z.abs (Qnum q) * 100 in
  let d := Zpos (Qden q) in
  let lo := n / d in
  let r := n mod d in
  let hundredths :=
    if 2 * r >? d then lo + 1
    else if 2 * r =? d then (if Z.even lo then lo else lo + 1)
    else lo in
  (if Qnum q <? 0 then "-" else "+")
    ++ str_int (hundredths / 100) ++ "."
    ++ digit (hundredths / 10) ++ digit hundredths.

Definition fmt_signed2 (e : exact) : result string :=
  q <~ to_float e ;;
  Ok (fixed2 q).

Definition type_of (e : exact) : string :=
  match e with
  | EInt _ => "int"
  | EFloat _ => "float"
  end.

#[export] Instance number : Number := {|
  num := exact;
  num_of_Z := EInt;
  num_sub := sub;
  num_mul := mul;
  num_div := div;
  num_eqb := eqb;
  num_ltb := ltb;
  num_str := str;
  num_fmt_signed2 := fmt_signed2;
  num_type := type_of
|}.

(** [repr], for strings without quotes, backslashes or control
    characters. *)
Fixpoint repr (v : pyval) : string :=
  match v with
  | PNone => "None"
  | PBool true => "True"
  | PBool false => "False"
  | PNum n => str n
  | PStr s => "'" ++ s ++ "'"
  | PList l =>
      "[" ++ (fix items (l : list pyval) : string :=
                match l with
                | [] => ""
                | [x] => repr x
                | x :: rest => repr x ++ ", " ++ items rest
                end) l ++ "]"
  | PDict d =>
      "{" ++ (fix items (d : list (string * pyval)) : string :=
                match d with
                | [] => ""
                | [(k, x)] => "'" ++ k ++ "': " ++ repr x
                | (k, x) :: rest => "'" ++ k ++ "': " ++ repr x ++ ", " ++ items rest
                end) d ++ "}"
  end.

(** [str.upper] on ASCII letters; other bytes stay, so this is [str.upper]
    on ASCII text only. *)
Definition upper_ascii (c : ascii) : ascii :=
  let n := nat_of_ascii c in
  if ((97 <=? n) && (n <=? 122))%nat then ascii_of_nat (n - 32) else c.

Fixpoint upper (s : string) : string :=
  match s with
  | EmptyString => EmptyString
  | String c rest => String (upper_ascii c) (upper rest)
  end.

#[export] Instance runtime : Runtime := {|
  py_repr := repr;
  str_upper := upper
|}.

(** A world whose quote endpoint answers [quote_response] and whose
    completion endpoint answers [completion_response]. *)
Definition world_of (quote_response completion_response : result response)
    : world :=
  {| post := fun _ _ _ => completion_response;
     get := fun _ => quote_response;
     now := "2026-01-02 03:04:05" |}.

Definition ok_json (v : pyval) : result response :=
  Ok {| status_code := 200; text := ""; json := Ok v |}.

Definition status_only (code : Z) : result response :=
  Ok {| status_code := code; text := "";
        json := Raise (mkExn "JSONDecodeError"
                         "Expecting value: line 1 column 1 (char 0)") |}.

Definition chart (meta : list (string * pyval)) : pyval :=
  PDict [("chart", PDict [("result", PList [PDict [("meta", PDict meta)]])])].

End Exact.

(** Inputs to evaluate at. *)
Module Sample.
Import Exact.

Definition cfg : Richer.config :=
  {| Richer.BOT_TOKEN := "123456:ABC-DEF";
     Richer.CHAT_ID := "42";
     Richer.NEBULA_API_KEY := "secret";
     Richer.NEBULA_API_URL := "https://api.nebula.gg" |}.

Definition cfg_without_key : Richer.config :=
  {| Richer.BOT_TOKEN := "123456:ABC-DEF";
     Richer.CHAT_ID := "42";
     Richer.NEBULA_API_KEY := "";
     Richer.NEBULA_API_URL := "https://api.nebula.gg" |}.

Definition scfg : Simpler.config :=
  {| Simpler.BOT_TOKEN := "123456:ABC-DEF"; Simpler.CHAT_ID := Some "42" |}.

Definition scfg_open : Simpler.config :=
  {| Simpler.BOT_TOKEN := "123456:ABC-DEF"; Simpler.CHAT_ID := None |}.

(** Only the token is set. *)
Definition env_token_only : environ :=
  fun k => if (k =? "TELEGRAM_BOT_TOKEN")%string
           then Some "123456:ABC-DEF" else None.

Definition owner_text : update :=
  {| user_id := 42; message_text := "hello"; command := None |}.

Definition owner_stock : update :=
  {| user_id := 42; message_text := "/stock 2330.tw";
     command := Some ("stock", ["2330.tw"]) |}.

Definition stranger_start : update :=
  {| user_id := 999; message_text := "/start";
     command := Some ("start", []) |}.

Definition stranger_text : update :=
  {| user_id := 999; message_text := "hello"; command := None |}.

Definition meta_full : list (string * pyval) :=
  [("regularMarketPrice", PNum (EFloat (600 # 1)));
   ("previousClose", PNum (EFloat (590 # 1)));
   ("symbol", PStr "2330.TW");
   ("currency", PStr "TWD")].

(** A payload with the price only. *)
Definition meta_bare : list (string * pyval) :=
  [("regularMarketPrice", PNum (EFloat (600 # 1)))].

Definition meta_zero_close : list (string * pyval) :=
  [("regularMarketPrice", PNum (EFloat (600 # 1)));
   ("previousClose", PNum (EInt 0))].

Definition answer (content : string) : pyval :=
  PDict [("choices",
          PList [PDict [("message", PDict [("role", PStr "assistant");
                                           ("content", PStr content)])]])].

Definition w_full : world := world_of (ok_json (chart meta_full)) (ok_json (answer "hi")).
Definition w_bare : world := world_of (ok_json (chart meta_bare)) (ok_json (answer "hi")).
Definition w_zero_close : world :=
  world_of (ok_json (chart meta_zero_close)) (ok_json (answer "hi")).
Definition w_404 : world := world_of (status_only 404) (status_only 500).
Definition w_201 : world := world_of (status_only 404) (status_only 201).
Definition w_empty_choices : world :=
  world_of (status_only 404) (ok_json (PDict [("choices", PList [])])).

(** Token and identity set, nothing else. *)
Definition env_full : environ :=
  fun k => if (k =? "TELEGRAM_BOT_TOKEN")%string then Some "123456:ABC-DEF"
           else if (k =? "TELEGRAM_CHAT_ID")%string then Some "42"
           else None.

Definition meta_null_price : list (string * pyval) :=
  [("regularMarketPrice", PNone);
   ("previousClose", PNum (EFloat (590 # 1)))].



Definition w_null_price : world :=
  world_of (ok_json (chart meta_null_price)) (ok_json (answer "hi")).

(** The body the quote endpoint sends for a symbol it does not know. *)
Definition no_result : pyval :=
  PDict [("chart",
          PDict [("result", PNone);
                 ("error", PDict [("code", PStr "Not Found");
                                  ("description",
                                   PStr "No data found, symbol may be delisted")])])].

Definition w_no_result : world :=
  world_of (ok_json no_result) (ok_json (answer "hi")).

End Sample.

(* ================================================================== *)
(** * Properties *)

(** ** Text *)

Lemma append_nil_r (s : string) : s ++ "" = s.
Proof. induction s as [|c s IH]; simpl; [reflexivity | now rewrite IH]. Qed.

Lemma append_assoc (a b c : string) : (a ++ b) ++ c = a ++ b ++ c.
Proof. induction a as [|x a IH]; simpl; [reflexivity | now rewrite IH]. Qed.

Lemma contains_middle (a n b : string) : contains n (a ++ n ++ b).
Proof. now exists a, b. Qed.

Lemma contains_refl (s : string) : contains s s.
Proof. exists "", "". simpl. now rewrite append_nil_r. Qed.

Lemma contains_app_r (n a b : string) : contains n b -> contains n (a ++ b).
Proof.
  intros (pre & post & ->). exists (a ++ pre), post.
  now rewrite append_assoc.
Qed.

Lemma contains_app_l (n a b : string) : contains n a -> contains n (a ++ b).
Proof.
  intros (pre & post & ->). exists pre, (post ++ b).
  now rewrite !append_assoc.
Qed.

Lemma unlines_cons (l : string) (ls : list string) :
  ls <> [] -> unlines (l :: ls) = l ++ nl ++ unlines ls.
Proof. destruct ls; [congruence | reflexivity]. Qed.

Lemma contains_unlines (n l : string) (ls : list string) :
  In l ls -> contains n l -> contains n (unlines ls).
Proof.
  induction ls as [|x ls IH]; intros Hin Hn; [destruct Hin|].
  destruct ls as [|y ls].
  - destruct Hin as [-> | []]. exact Hn.
  - rewrite unlines_cons by discriminate.
    destruct Hin as [-> | Hin].
    + now apply contains_app_l.
    + apply contains_app_r, contains_app_r. now apply IH.
Qed.

(** ** The monad *)

Section Monad.
Context {N : Number}.

Lemma bind_ok {A B} (a : A) (t : list event) (k : A -> M B) :
  bind (Ok a, t) k = (fst (k a), (t ++ snd (k a))%list).
Proof. unfold bind. now destruct (k a). Qed.

Lemma bind_raise {A B} (e : exn) (t : list event) (k : A -> M B) :
  bind (Raise e, t) k = (Raise e, t).
Proof. reflexivity. Qed.

Lemma try_ok {A} (a : A) (t : list event) (h : exn -> M A) :
  try_except (Ok a, t) h = (Ok a, t).
Proof. reflexivity. Qed.

Lemma try_raise {A} (e : exn) (t : list event) (h : exn -> M A) :
  try_except (Raise e, t) h = (fst (h e), (t ++ snd (h e))%list).
Proof. unfold try_except. now destruct (h e). Qed.

Lemma outbound_app (t t' : list event) :
  outbound (t ++ t') = (outbound t ++ outbound t')%list.
Proof. apply filter_app. Qed.

End Monad.

Create Rewrite HintDb run.
#[local] Hint Rewrite @bind_ok @bind_raise @try_ok @try_raise : run.

(** Runs a handler as far as the hypotheses in the context decide it. *)
Ltac run :=
  repeat (autorewrite with run;
          cbn beta iota delta [fst snd lift ret emit app bind try_except]).

(** ** Completion caller *)

Section Completion.
Context {N : Number} {R : Runtime}.
Import Richer.

(** C6. Without a completion credential [call_nebula_api] returns the
    advisory text naming [NEBULA_API_KEY] and its trace is empty: no request
    leaves the process, whatever the message. *)
Theorem call_nebula_api_without_key (cfg : config) (w : world) (message : string) :
  NEBULA_API_KEY cfg = "" ->
  call_nebula_api cfg w message = (Ok (PStr advisory), []) /\
  outbound (trace (call_nebula_api cfg w message)) = [] /\
  contains "NEBULA_API_KEY" advisory.
Proof.
  intros Hkey.
  assert (E : call_nebula_api cfg w message = (Ok (PStr advisory), [])).
  { unfold call_nebula_api, complete. now rewrite Hkey. }
  rewrite E. repeat split.
  unfold advisory. eapply contains_unlines.
  - right; right; left; reflexivity.
  - exact (contains_middle "請在 Render 環境變數中設定 " "NEBULA_API_KEY" "。").
Qed.

(** How [complete] ends, by what the endpoint does. *)
Lemma complete_cases (cfg : config) (w : world) (message : string) :
  let request := post w (completion_url cfg) (completion_headers cfg)
                   (completion_request message) in
  let sent := Post (completion_url cfg) (completion_headers cfg)
                (completion_request message) in
  complete cfg w message =
    if (NEBULA_API_KEY cfg =? "")%string then (Ok Unavailable, [])
    else match request with
         | Raise e =>
             (Ok (Failed e), [sent; Log "ERROR" ("Nebula API 異常: " ++ exn_str e)])
         | Ok resp =>
             if status_code resp =? 200 then
               match read_content resp with
               | Ok v => (Ok (Content v), [sent])
               | Raise e =>
                   (Ok (Failed e),
                    [sent; Log "ERROR" ("Nebula API 異常: " ++ exn_str e)])
               end
             else
               (Ok (HttpFailure (status_code resp)),
                [sent; Log "ERROR" ("Nebula API 錯誤: "
                                    ++ str_int (status_code resp)
                                    ++ " - " ++ text resp)])
         end.
Proof.
  cbv zeta. unfold complete, http_post, log_error.
  destruct (NEBULA_API_KEY cfg =? "")%string; [reflexivity|].
  destruct (post w _ _ _) as [resp | e]; [|reflexivity].
  run. destruct (status_code resp =? 200).
  - destruct (read_content resp); reflexivity.
  - reflexivity.
Qed.

Lemma call_nebula_api_value (cfg : config) (w : world) (message : string) :
  call_nebula_api cfg w message =
    (match returned (complete cfg w message) with
     | Ok c => Ok (completion_value c)
     | Raise e => Raise e
     end, trace (complete cfg w message)).
Proof.
  unfold call_nebula_api, returned, trace.
  destruct (complete cfg w message) as [[c | e] t]; run.
  - now rewrite app_nil_r.
  - reflexivity.
Qed.

(** C5, amended. [call_nebula_api] always returns; what it returns is a
    failure sentinel exactly when the credential is missing, the status is
    not 200, or an exception is raised inside the call (by the transport,
    or while the body of a 200 response is decoded and read). A 200 response
    whose body is read without an exception yields the content read, and
    the sentinel for another status embeds that status. *)
Theorem completion_failure_iff (cfg : config) (w : world) (message : string) :
  let request := post w (completion_url cfg) (completion_headers cfg)
                   (completion_request message) in
  exists c,
    returned (complete cfg w message) = Ok c /\
    returned (call_nebula_api cfg w message) = Ok (completion_value c) /\
    (is_failure c = true <->
       NEBULA_API_KEY cfg = "" \/
       (exists resp, request = Ok resp /\ status_code resp <> 200) \/
       (exists e, request = Raise e \/
          exists resp, request = Ok resp /\ status_code resp = 200 /\
                       read_content resp = Raise e)) /\
    (forall resp v,
       NEBULA_API_KEY cfg <> "" -> request = Ok resp ->
       status_code resp = 200 -> read_content resp = Ok v ->
       c = Content v) /\
    (forall resp,
       NEBULA_API_KEY cfg <> "" -> request = Ok resp ->
       status_code resp <> 200 ->
       c = HttpFailure (status_code resp) /\
       exists s, completion_value c = PStr s /\
                 contains (str_int (status_code resp)) s).
Proof.
  cbv zeta.
  rewrite call_nebula_api_value. unfold returned at 2.
  pose proof (complete_cases cfg w message) as E. cbv zeta in E.
  unfold returned. rewrite E. clear E.
  destruct (String.eqb_spec (NEBULA_API_KEY cfg) "") as [Hk | Hk].
  { exists Unavailable. repeat split; auto; try contradiction. }
  destruct (post w _ _ _) as [resp | e].
  2:{ exists (Failed e). repeat split; try discriminate.
      intros _. right; right. exists e. now left. }
  destruct (Z.eqb_spec (status_code resp) 200) as [Hs | Hs].
  - destruct (read_content resp) as [v | e] eqn:Hc.
    + exists (Content v). repeat split; try discriminate.
      * intros [Hk' | [(r & Hr & Hn) | (e & [Hr | (r & Hr & _ & Hc')])]].
        -- contradiction.
        -- injection Hr as <-. contradiction.
        -- discriminate.
        -- injection Hr as <-. congruence.
      * intros r v' _ Hr _ Hv. injection Hr as <-. congruence.
      * injection H0 as <-. contradiction.
      * injection H0 as <-. contradiction.
    + exists (Failed e). repeat split; try discriminate.
      * intros _. right; right. exists e. right. now exists resp.
      * intros r v' _ Hr _ Hv. injection Hr as <-. congruence.
      * injection H0 as <-. contradiction.
      * injection H0 as <-. contradiction.
  - exists (HttpFailure (status_code resp)). repeat split; try discriminate.
    + intros _. right; left. now exists resp.
    + intros r v' _ Hr Hs'. injection Hr as <-. contradiction.
    + injection H0 as <-. reflexivity.
    + injection H0 as <-. eexists. split; [reflexivity|].
      apply contains_middle.
Qed.

(** C7. A 200 response gives the content of the first choice, and the
    default text when [choices], [message] or [content] is missing; but an
    empty [choices] list raises [IndexError] at [[0]], and what comes back
    is the text of the [except] branch, not the default. *)
Theorem empty_choices_not_defaulted
    (cfg : config) (w : world) (message : string) (resp : response) :
  NEBULA_API_KEY cfg <> "" ->
  post w (completion_url cfg) (completion_headers cfg)
    (completion_request message) = Ok resp ->
  status_code resp = 200 ->
  json resp = Ok (PDict [("choices", PList [])]) ->
  returned (call_nebula_api cfg w message)
    = Ok (PStr "❌ 發生錯誤: list index out of range") /\
  returned (call_nebula_api cfg w message) <> Ok (PStr no_content) /\
  (forall v rest more,
     first_content
       (PDict [("choices",
                PList (PDict (("message", PDict (("content", v) :: more))
                              :: rest) :: []))]) = Ok v) /\
  first_content (PDict []) = Ok (PStr no_content) /\
  first_content (PDict [("choices", PList [PDict []])])
    = Ok (PStr no_content) /\
  first_content (PDict [("choices", PList [PDict [("message", PDict [])]])])
    = Ok (PStr no_content).
Proof.
  intros Hk Hreq Hs Hj.
  assert (E : returned (call_nebula_api cfg w message)
              = Ok (PStr "❌ 發生錯誤: list index out of range")).
  { rewrite call_nebula_api_value. unfold returned.
    pose proof (complete_cases cfg w message) as E. cbv zeta in E.
    rewrite E, Hreq, Hs. clear E.
    apply String.eqb_neq in Hk. rewrite Hk. cbn [Z.eqb Pos.eqb].
    unfold read_content. rewrite Hj. reflexivity. }
  rewrite E. repeat split; try reflexivity.
  intros H. injection H as H. vm_compute in H. discriminate.
Qed.

End Completion.

(** ** Quote formatter *)

Section Quote.
Context {N : Number} {R : Runtime}.
Import Richer.

(** How [get_stock_price] ends, by what the endpoint does. *)
Lemma get_stock_price_cases (w : world) (stock_code : string) :
  let sent := Get (quote_url stock_code) in
  let failed e :=
    (Ok ("❌ 查詢失敗: " ++ exn_str e),
     [sent; Log "ERROR" ("股價查詢錯誤: " ++ exn_str e)]) in
  get_stock_price w stock_code =
    match get w (quote_url stock_code) with
    | Raise e => failed e
    | Ok resp =>
        if status_code resp =? 200 then
          match json resp with
          | Raise e => failed e
          | Ok data =>
              match read_quote stock_code data with
              | Raise e => failed e
              | Ok q =>
                  match render_quote q (now w) with
                  | Raise e => failed e
                  | Ok block => (Ok block, [sent])
                  end
              end
          end
        else
          (Ok ("❌ 無法取得 " ++ stock_code ++ " 的股價資訊（HTTP "
               ++ str_int (status_code resp) ++ "）"), [sent])
    end.
Proof.
  cbv zeta. unfold get_stock_price, http_get, log_error.
  destruct (get w _) as [resp | e]; [|reflexivity].
  run. destruct (status_code resp =? 200); [|reflexivity].
  destruct (json resp) as [data | e]; [|reflexivity].
  run. destruct (read_quote stock_code data) as [q | e]; [|reflexivity].
  run. destruct (render_quote q (now w)); reflexivity.
Qed.

(** C4. [get_stock_price] returns a string in every world, so nothing
    escapes to the caller; for a status other than 200 (404, say) the string
    contains the status code, and an exception of the transport or of the
    decoding of the body becomes an error string with its message. *)
Theorem get_stock_price_never_raises (w : world) (stock_code : string) :
  let request := get w (quote_url stock_code) in
  (exists s, returned (get_stock_price w stock_code) = Ok s) /\
  (forall resp,
     request = Ok resp -> status_code resp <> 200 ->
     exists s, returned (get_stock_price w stock_code) = Ok s /\
               contains (str_int (status_code resp)) s) /\
  (forall e,
     request = Raise e ->
     returned (get_stock_price w stock_code)
       = Ok ("❌ 查詢失敗: " ++ exn_str e)) /\
  (forall resp e,
     request = Ok resp -> status_code resp = 200 -> json resp = Raise e ->
     returned (get_stock_price w stock_code)
       = Ok ("❌ 查詢失敗: " ++ exn_str e)).
Proof.
  cbv zeta.
  pose proof (get_stock_price_cases w stock_code) as E. cbv zeta in E.
  rewrite E. clear E. unfold returned.
  repeat split.
  - destruct (get w _) as [resp | e]; [|eexists; reflexivity].
    destruct (status_code resp =? 200); [|eexists; reflexivity].
    destruct (json resp) as [data | e]; [|eexists; reflexivity].
    destruct (read_quote stock_code data) as [q | e]; [|eexists; reflexivity].
    destruct (render_quote q (now w)); eexists; reflexivity.
  - intros resp -> Hs. apply Z.eqb_neq in Hs. rewrite Hs.
    eexists. split; [reflexivity|].
    apply contains_app_r, contains_app_r, contains_app_r, contains_app_l.
    apply contains_refl.
  - now intros e ->.
  - intros resp e -> Hs Hj. rewrite Hs, Hj. reflexivity.
Qed.

Lemma py_get_field (meta : list (string * pyval)) (k : string) (o : option num) :
  lookup k meta = option_map PNum o ->
  py_get (PDict meta) k absent = Ok (field_value o).
Proof. intros H. cbn. rewrite H. now destruct o. Qed.

Lemma field_value_present (o : option num) :
  py_ne_str (field_value o) "N/A" = match o with Some _ => true | None => false end.
Proof. now destruct o. Qed.

(** What [quote_of_meta] computes from a [meta] whose price and previous
    close are each a number or missing: the spec's rule, and an exception
    exactly where the arithmetic of that rule raises one. *)
Lemma quote_of_meta_fields
    (stock_code : string) (meta : list (string * pyval)) (p c : option num) :
  lookup "regularMarketPrice" meta = option_map PNum p ->
  lookup "previousClose" meta = option_map PNum c ->
  quote_of_meta stock_code (PDict meta) =
    (change <~ spec_change p c ;;
     change_percent <~ spec_change_percent change c ;;
     Ok {| symbol := match lookup "symbol" meta with
                     | Some v => v
                     | None => PStr stock_code
                     end;
           price := field_value p;
           prev_close := field_value c;
           change := change;
           change_percent := change_percent;
           currency := match lookup "currency" meta with
                       | Some v => v
                       | None => PStr "TWD"
                       end |}).
Proof.
  intros Hp Hc. unfold quote_of_meta.
  rewrite (py_get_field _ _ _ Hp), (py_get_field _ _ _ Hc). cbn [rbind].
  rewrite !field_value_present.
  assert (G : forall k d, py_get (PDict meta) k d
                          = Ok match lookup k meta with
                               | Some v => v
                               | None => d
                               end).
  { intros k d. cbn. now destruct (lookup k meta). }
  rewrite !G.
  unfold spec_change, spec_change_percent.
  destruct p as [x|], c as [y|]; cbn [andb field_value absent];
    unfold py_sub, py_ne_zero, py_div; cbn [as_num rbind py_ne_str negb].
  - destruct (num_sub x y) as [ch|e]; cbn [rbind]; [|reflexivity].
    destruct (num_eqb y (num_of_Z 0)); cbn [negb rbind]; [reflexivity|].
    destruct (num_div ch y) as [r|e]; cbn [rbind]; [|reflexivity].
    destruct (num_mul r (num_of_Z 100)); reflexivity.
  - reflexivity.
  - destruct (num_eqb y (num_of_Z 0)); cbn [negb rbind]; [reflexivity|].
    destruct (num_div (num_of_Z 0) y) as [r|e]; cbn [rbind]; [|reflexivity].
    destruct (num_mul r (num_of_Z 100)); reflexivity.
  - reflexivity.
Qed.

(** What a successful read took for the symbol and the currency. *)
Lemma quote_of_meta_defaults
    (stock_code : string) (meta : list (string * pyval)) (q : quote) :
  quote_of_meta stock_code (PDict meta) = Ok q ->
  symbol q = match lookup "symbol" meta with
             | Some v => v
             | None => PStr stock_code
             end /\
  currency q = match lookup "currency" meta with
               | Some v => v
               | None => PStr "TWD"
               end.
Proof.
  unfold quote_of_meta.
  assert (G : forall k d, py_get (PDict meta) k d
                          = Ok match lookup k meta with
                               | Some v => v
                               | None => d
                               end).
  { intros k d. cbn. now destruct (lookup k meta). }
  rewrite !G. cbn [rbind].
  do 2 (match goal with
        | |- rbind ?r _ = _ -> _ =>
            destruct r; [cbn [rbind] | discriminate]
        end).
  intros [= <-]. split; reflexivity.
Qed.

Lemma get_stock_price_ok
    (w : world) (stock_code : string) (resp : response) (data : pyval)
    (q : quote) (block : string) :
  get w (quote_url stock_code) = Ok resp ->
  status_code resp = 200 ->
  json resp = Ok data ->
  read_quote stock_code data = Ok q ->
  render_quote q (now w) = Ok block ->
  get_stock_price w stock_code = (Ok block, [Get (quote_url stock_code)]).
Proof.
  intros Hg Hs Hj Hq Hb.
  pose proof (get_stock_price_cases w stock_code) as E. cbv zeta in E.
  now rewrite E, Hg, Hs, Hj, Hq, Hb.
Qed.

(** The lines of a rendered block. *)
Lemma render_quote_lines (q : quote) (time block : string) :
  render_quote q time = Ok block ->
  exists change_text percent_text,
    num_fmt_signed2 (change q) = Ok change_text /\
    num_fmt_signed2 (change_percent q) = Ok percent_text /\
    block = unlines [
              "";
              "📊 **" ++ py_str (symbol q) ++ "** 即時資訊";
              "";
              "💰 目前價格: " ++ py_str (price q) ++ " " ++ py_str (currency q);
              "📉 昨日收盤: " ++ py_str (prev_close q) ++ " "
                ++ py_str (currency q);
              change_emoji (change q) ++ " 漲跌: " ++ change_text
                ++ " (" ++ percent_text ++ "%)";
              "🕐 更新時間: " ++ time;
              "" ].
Proof.
  unfold render_quote.
  destruct (num_fmt_signed2 (change q)) as [ct|]; [cbn [rbind] | discriminate].
  destruct (num_fmt_signed2 (change_percent q)) as [pt|];
    [cbn [rbind] | discriminate].
  intros [= <-]. now exists ct, pt.
Qed.


(** C10. When [meta] has no currency the block is rendered with TWD, and
    when it has no symbol the block names the stock code that was asked
    for. *)
Theorem quote_defaults
    (w : world) (stock_code : string) (resp : response) (data : pyval)
    (meta : list (string * pyval)) (q : quote) (block : string) :
  get w (quote_url stock_code) = Ok resp ->
  status_code resp = 200 ->
  json resp = Ok data ->
  quote_meta data = Ok (PDict meta) ->
  quote_of_meta stock_code (PDict meta) = Ok q ->
  render_quote q (now w) = Ok block ->
  get_stock_price w stock_code
    = (Ok block, [Get (quote_url stock_code)]) /\
  (lookup "currency" meta = None ->
     currency q = PStr "TWD" /\
     contains ("💰 目前價格: " ++ py_str (price q) ++ " TWD") block /\
     contains ("📉 昨日收盤: " ++ py_str (prev_close q) ++ " TWD") block) /\
  (lookup "symbol" meta = None ->
     symbol q = PStr stock_code /\
     contains ("📊 **" ++ stock_code ++ "** 即時資訊") block).
Proof.
  intros Hg Hs Hj Hm Hq Hb.
  assert (Hr : read_quote stock_code data = Ok q)
    by (unfold read_quote; now rewrite Hm).
  split; [exact (get_stock_price_ok _ _ _ _ _ _ Hg Hs Hj Hr Hb)|].
  destruct (quote_of_meta_defaults _ _ _ Hq) as [Hsym Hcur].
  destruct (render_quote_lines _ _ _ Hb) as (ct & pt & _ & _ & ->).
  split.
  - intros Hnone. rewrite Hnone in Hcur.
    split; [exact Hcur|]. rewrite Hcur.
    cbn [py_str]. split; eapply contains_unlines.
    + do 3 right; left; reflexivity.
    + apply contains_refl.
    + do 4 right; left; reflexivity.
    + apply contains_refl.
  - intros Hnone. rewrite Hnone in Hsym.
    split; [exact Hsym|]. rewrite Hsym.
    cbn [py_str]. eapply contains_unlines.
    + right; left; reflexivity.
    + apply contains_refl.
Qed.

End Quote.

(** ** Handlers *)

Section Handlers.
Context {N : Number} {R : Runtime}.

(** [get_stock_price] sends one request and otherwise only logs. *)
Lemma get_stock_price_trace (w : world) (stock_code : string) :
  exists result logs,
    Richer.get_stock_price w stock_code
      = (Ok result, Get (Richer.quote_url stock_code) :: logs) /\
    outbound logs = [].
Proof.
  pose proof (get_stock_price_cases w stock_code) as E. cbv zeta in E.
  rewrite E. clear E.
  destruct (get w _) as [resp | e]; [|now eexists; eexists].
  destruct (status_code resp =? 200); [|now eexists; eexists].
  destruct (json resp) as [data | e]; [|now eexists; eexists].
  destruct (Richer.read_quote stock_code data) as [q | e];
    [|now eexists; eexists].
  destruct (Richer.render_quote q (now w)); now eexists; eexists.
Qed.

(** C8. For the authorized sender, [/stock] without an argument replies
    with the usage text and sends no request; with arguments it looks up
    the first one in upper case: that is the symbol in the acknowledgement
    and in the one request sent. *)
Theorem stock_command_authorized
    (cfg : Richer.config) (w : world) (u : update) :
  str_int (user_id u) = Richer.CHAT_ID cfg ->
  Richer.stock_command cfg w u []
    = (Ok tt, [Reply Richer.stock_usage None]) /\
  outbound (trace (Richer.stock_command cfg w u [])) = [] /\
  forall arg0 rest,
    let stock_code := str_upper arg0 in
    exists result logs,
      Richer.get_stock_price w stock_code
        = (Ok result, Get (Richer.quote_url stock_code) :: logs) /\
      Richer.stock_command cfg w u (arg0 :: rest)
        = (Ok tt,
           Reply ("🔍 正在查詢 " ++ stock_code ++ " 的股價...") None
           :: Get (Richer.quote_url stock_code)
           :: (logs ++ [Edit (PStr result)])%list) /\
      outbound (trace (Richer.stock_command cfg w u (arg0 :: rest)))
        = [Get (Richer.quote_url stock_code)].
Proof.
  intros Hu. unfold Richer.stock_command. rewrite Hu, String.eqb_refl.
  cbn [negb]. split; [reflexivity | split; [reflexivity|]].
  intros arg0 rest.
  destruct (get_stock_price_trace w (str_upper arg0))
    as (result & logs & E & Hl).
  exists result, logs. split; [exact E|].
  unfold reply_text, edit_text, emit. rewrite E. run.
  split; [reflexivity|].
  unfold trace. cbn [snd]. unfold outbound. cbn [filter is_outbound].
  fold (outbound (logs ++ [Edit (PStr result)])).
  rewrite outbound_app, Hl. reflexivity.
Qed.

(** C1, amended. In the richer variant a sender other than the configured
    identity gets exactly the denial text from every command handler and
    from the free-text handler, and nothing else happens. In the simpler
    variant only the free-text handler looks at the sender: with an
    identity configured it answers another sender with exactly its own
    denial text, while each command handler answers with one fixed text
    whoever sends; no handler of that variant sends a request. *)
Theorem unauthorized_sender_denied
    (cfg : Richer.config) (w : world) (scfg : Simpler.config) (id : string)
    (u : update) (args : list string) :
  str_int (user_id u) <> Richer.CHAT_ID cfg ->
  Simpler.CHAT_ID scfg = Some id ->
  id <> "" ->
  str_int (user_id u) <> id ->
  Forall (fun h : Richer.handler =>
            h cfg w u args = (Ok tt, [Reply Richer.denial None]) /\
            outbound (trace (h cfg w u args)) = [])
    (Richer.handle_message :: map snd Richer.command_handlers) /\
  Simpler.handle_message scfg u = (Ok tt, [Reply Simpler.denial None]) /\
  outbound (trace (Simpler.handle_message scfg u)) = [] /\
  Forall (fun h : Simpler.handler =>
            exists text mode, forall scfg' u',
              h scfg' u' = (Ok tt, [Reply text mode]))
    (map snd Simpler.command_handlers).
Proof.
  intros Hr Hid Hne Hs.
  apply String.eqb_neq in Hr, Hne, Hs.
  assert (Hd : Simpler.denied scfg (user_id u) = true).
  { unfold Simpler.denied. rewrite Hid. cbn [truthy unwrap].
    now rewrite Hne, Hs. }
  split; [| split; [| split]].
  - cbn [map snd Richer.command_handlers].
    repeat constructor;
      unfold Richer.handle_message, Richer.start_command, Richer.help_command,
        Richer.ping_command, Richer.stock_command, Richer.portfolio_command,
        Richer.report_command; rewrite Hr; reflexivity.
  - unfold Simpler.handle_message. now rewrite Hd.
  - unfold Simpler.handle_message. now rewrite Hd.
  - cbn [map snd Simpler.command_handlers].
    repeat constructor; eexists; eexists; intros; reflexivity.
Qed.

(** C2. With no authorized identity in the environment the richer variant
    exits with status 1 while it loads: its whole run is the one error
    line, whatever updates wait. The simpler variant loads (given a token)
    and keeps the identity unset, and its free-text handler then answers
    any sender with the echo. *)
Theorem unconfigured_identity
    (env : environ) (w : world) (us : list update)
    (scfg : Simpler.config) (u : update) :
  truthy (env "TELEGRAM_CHAT_ID") = false ->
  truthy (Simpler.CHAT_ID scfg) = false ->
  (exists msg, Richer.main env w us = (Exit 1, [Log "ERROR" msg])) /\
  1 <> 0 /\
  (truthy (env "TELEGRAM_BOT_TOKEN") = true ->
   Simpler.load env
     = (Loaded {| Simpler.BOT_TOKEN := unwrap (env "TELEGRAM_BOT_TOKEN");
                  Simpler.CHAT_ID := env "TELEGRAM_CHAT_ID" |}, [])) /\
  Simpler.handle_message scfg u
    = (Ok tt,
       [Log "INFO" ("收到訊息: " ++ message_text u ++ " (用戶: "
                    ++ str_int (user_id u) ++ ")");
        Reply (Simpler.echo (message_text u)) None]).
Proof.
  intros Henv Hcfg. repeat split.
  - unfold Richer.main, Richer.load. rewrite Henv. cbn [negb].
    destruct (truthy (env "TELEGRAM_BOT_TOKEN")); cbn [negb]; eauto.
  - discriminate.
  - intros Ht. unfold Simpler.load. now rewrite Ht.
  - unfold Simpler.handle_message, Simpler.denied. now rewrite Hcfg.
Qed.

(** C9. The free-text handler of the simpler variant sends no request for
    any sender, and a sender it lets through (the configured one, or anyone
    when none is configured) gets the echo template with the message text
    in it verbatim. *)
Theorem simpler_echo (scfg : Simpler.config) (u : update) :
  Simpler.denied scfg (user_id u) = false ->
  Simpler.handle_message scfg u
    = (Ok tt,
       [Log "INFO" ("收到訊息: " ++ message_text u ++ " (用戶: "
                    ++ str_int (user_id u) ++ ")");
        Reply (Simpler.echo (message_text u)) None]) /\
  contains (message_text u) (Simpler.echo (message_text u)) /\
  (forall scfg' u',
     outbound (trace (Simpler.handle_message scfg' u')) = []).
Proof.
  intros Hd. repeat split.
  - unfold Simpler.handle_message. now rewrite Hd.
  - apply contains_middle.
  - intros scfg' u'. unfold Simpler.handle_message.
    now destruct (Simpler.denied scfg' (user_id u')).
Qed.

End Handlers.

(** ** More on the callers and the handlers *)

Section Extra.
Context {N : Number} {R : Runtime}.

(** The quote caller sends exactly one request in every world, a GET of the
    chart URL of the stock code: none is repeated after a failure and no
    other endpoint is called. *)
Theorem get_stock_price_one_request (w : world) (stock_code : string) :
  outbound (trace (Richer.get_stock_price w stock_code))
  = [Get ("https://query1.finance.yahoo.com/v8/finance/chart/" ++ stock_code)].
Proof.
  destruct (get_stock_price_trace w stock_code) as (result & logs & E & Hl).
  rewrite E. unfold trace, outbound. cbn [snd filter is_outbound].
  fold (outbound logs). now rewrite Hl.
Qed.

(** What [complete] sends: nothing without a credential, else the one POST. *)
Lemma complete_requests (cfg : Richer.config) (w : world) (message : string) :
  exists c calls,
    Richer.complete cfg w message = (Ok c, calls) /\
    outbound calls
    = if (Richer.NEBULA_API_KEY cfg =? "")%string then []
      else [Post (Richer.completion_url cfg) (Richer.completion_headers cfg)
              (Richer.completion_request message)].
Proof.
  pose proof (complete_cases cfg w message) as E. cbv zeta in E.
  rewrite E. clear E.
  destruct (Richer.NEBULA_API_KEY cfg =? "")%string;
    [now eexists; eexists|].
  destruct (post w _ _ _) as [resp | e]; [|now eexists; eexists].
  destruct (status_code resp =? 200); [|now eexists; eexists].
  destruct (Richer.read_content resp); now eexists; eexists.
Qed.

(** With a credential the completion caller sends exactly one request in
    every world: a POST to [/v1/chat/completions] under the configured base
    URL, with the credential as bearer token and the user's message as the
    content of the single message; it is not repeated after a failure. *)
Theorem call_nebula_api_one_request
    (cfg : Richer.config) (w : world) (message : string) :
  Richer.NEBULA_API_KEY cfg <> "" ->
  outbound (trace (Richer.call_nebula_api cfg w message))
  = [Post (Richer.NEBULA_API_URL cfg ++ "/v1/chat/completions")
       [("Authorization", "Bearer " ++ Richer.NEBULA_API_KEY cfg);
        ("Content-Type", "application/json")]
       (PDict [("messages", PList [PDict [("role", PStr "user");
                                          ("content", PStr message)]]);
               ("stream", PBool false)])].
Proof.
  intros Hk. apply String.eqb_neq in Hk.
  rewrite call_nebula_api_value. unfold trace at 1. cbn [snd].
  destruct (complete_requests cfg w message) as (c & calls & E & Hc).
  rewrite Hk in Hc. rewrite E. unfold trace. cbn [snd]. exact Hc.
Qed.

(** The free-text handler of the richer variant, for the authorized sender:
    it logs the message, replies with the placeholder, runs the completion
    caller once, and edits the placeholder to what the caller returned. The
    only request is the caller's, and there is none without a credential. *)
Theorem handle_message_authorized
    (cfg : Richer.config) (w : world) (u : update) (args : list string) :
  str_int (user_id u) = Richer.CHAT_ID cfg ->
  exists c calls,
    Richer.complete cfg w (message_text u) = (Ok c, calls) /\
    Richer.handle_message cfg w u args
    = (Ok tt,
       Log "INFO" ("收到訊息: " ++ message_text u ++ " (用戶: "
                   ++ str_int (user_id u) ++ ")")
       :: Reply "🤔 正在思考..." None
       :: (calls ++ [Edit (Richer.completion_value c)])%list) /\
    outbound (trace (Richer.handle_message cfg w u args))
    = if (Richer.NEBULA_API_KEY cfg =? "")%string then []
      else [Post (Richer.completion_url cfg) (Richer.completion_headers cfg)
              (Richer.completion_request (message_text u))].
Proof.
  intros Hu.
  destruct (complete_requests cfg w (message_text u)) as (c & calls & E & Hc).
  exists c, calls. split; [exact E|].
  assert (H : Richer.handle_message cfg w u args
              = (Ok tt,
                 Log "INFO" ("收到訊息: " ++ message_text u ++ " (用戶: "
                             ++ str_int (user_id u) ++ ")")
                 :: Reply "🤔 正在思考..." None
                 :: (calls ++ [Edit (Richer.completion_value c)])%list)).
  { unfold Richer.handle_message. rewrite Hu, String.eqb_refl. cbn [negb].
    rewrite call_nebula_api_value, E.
    unfold log_info, reply_text, edit_text, emit, returned, trace.
    run. reflexivity. }
  split; [exact H|]. rewrite H. unfold trace, outbound.
  cbn [snd filter is_outbound].
  fold (outbound (calls ++ [Edit (Richer.completion_value c)])).
  rewrite outbound_app, Hc. cbn [outbound filter is_outbound].
  now rewrite app_nil_r.
Qed.

(** [/ping] from the authorized sender is one reply and no request; the
    reply carries the current time and says whether the completion
    credential is configured. *)
Theorem ping_reports_credential
    (cfg : Richer.config) (w : world) (u : update) (args : list string) :
  str_int (user_id u) = Richer.CHAT_ID cfg ->
  exists text,
    Richer.ping_command cfg w u args = (Ok tt, [Reply text None]) /\
    contains ("⏰ 當前時間: " ++ now w) text /\
    (Richer.NEBULA_API_KEY cfg = "" ->
     contains "🔗 連接: Nebula API ⚠️ 未設定" text) /\
    (Richer.NEBULA_API_KEY cfg <> "" ->
     contains "🔗 連接: Nebula API ✅" text).
Proof.
  intros Hu. unfold Richer.ping_command. rewrite Hu, String.eqb_refl.
  cbn [negb]. eexists. split; [reflexivity|].
  unfold Richer.status_message. split; [| split].
  - eapply contains_unlines; [do 3 right; left; reflexivity|].
    apply contains_refl.
  - intros Hk. rewrite Hk. cbn [String.eqb].
    eapply contains_unlines; [do 5 right; left; reflexivity|].
    apply contains_refl.
  - intros Hk. apply String.eqb_neq in Hk. rewrite Hk.
    eapply contains_unlines; [do 5 right; left; reflexivity|].
    apply contains_refl.
Qed.

End Extra.

(** ** Start-up, the update loop, and the edges of the quote reader *)

Section Extra2.
Context {N : Number} {R : Runtime}.

(** A configuration the richer variant loaded is complete: the token and
    the authorized identity are the non-empty values of the environment,
    and the optional settings fall back to their defaults. *)
Theorem richer_loaded_config_complete
    (env : environ) (cfg : Richer.config) (t : list event) :
  Richer.load env = (Loaded cfg, t) ->
  env "TELEGRAM_BOT_TOKEN" = Some (Richer.BOT_TOKEN cfg) /\
  Richer.BOT_TOKEN cfg <> "" /\
  env "TELEGRAM_CHAT_ID" = Some (Richer.CHAT_ID cfg) /\
  Richer.CHAT_ID cfg <> "" /\
  (env "NEBULA_API_KEY" = None -> Richer.NEBULA_API_KEY cfg = "") /\
  (env "NEBULA_API_URL" = None ->
   Richer.NEBULA_API_URL cfg = "https://api.nebula.gg") /\
  outbound t = [].
Proof.
  unfold Richer.load, getenv_default.
  destruct (env "TELEGRAM_BOT_TOKEN") as [tok|]; cbn [truthy negb];
    [| discriminate].
  destruct (String.eqb_spec tok "") as [-> | Htok]; cbn [negb];
    [discriminate|].
  destruct (env "TELEGRAM_CHAT_ID") as [chat|]; cbn [truthy negb];
    [| discriminate].
  destruct (String.eqb_spec chat "") as [-> | Hchat]; cbn [negb];
    [discriminate|].
  intros [= <- <-]. cbn.
  repeat split; auto; intros ->; reflexivity.
Qed.

(** The simpler variant loads exactly when the token is set and non-empty,
    and keeps the authorized identity as the environment has it, set or
    not. *)
Theorem simpler_load_needs_token_only (env : environ) :
  (truthy (env "TELEGRAM_BOT_TOKEN") = true <->
   exists cfg, Simpler.load env = (Loaded cfg, [])) /\
  (forall cfg t,
     Simpler.load env = (Loaded cfg, t) ->
     env "TELEGRAM_BOT_TOKEN" = Some (Simpler.BOT_TOKEN cfg) /\
     Simpler.BOT_TOKEN cfg <> "" /\
     Simpler.CHAT_ID cfg = env "TELEGRAM_CHAT_ID").
Proof.
  unfold Simpler.load.
  destruct (env "TELEGRAM_BOT_TOKEN") as [tok|]; cbn [truthy negb unwrap].
  - destruct (String.eqb_spec tok "") as [-> | Htok]; cbn [negb].
    + split; [split; [discriminate | intros (cfg & H); discriminate]|].
      intros cfg t H; discriminate.
    + split; [split; [intros _; eexists; reflexivity | reflexivity]|].
      intros cfg t [= <- _]. cbn. auto.
  - split; [split; [discriminate | intros (cfg & H); discriminate]|].
    intros cfg t H; discriminate.
Qed.

(** One update from a sender who is not the authorized identity: the denial
    reply, or nothing when the command is not registered. *)
Lemma stranger_update (cfg : Richer.config) (w : world) (u : update) :
  str_int (user_id u) <> Richer.CHAT_ID cfg ->
  Richer.process_update cfg w u = (Ok tt, [Reply Richer.denial None]) \/
  Richer.process_update cfg w u = (Ok tt, []).
Proof.
  intros Hu. apply String.eqb_neq in Hu.
  unfold Richer.process_update.
  destruct (command u) as [[name args]|].
  - cbn [Richer.handler_for Richer.command_handlers].
    repeat (match goal with
            | |- context [if (name =? ?s)%string then _ else _] =>
                destruct (name =? s)%string
            end);
      try (right; reflexivity); left;
      unfold Richer.start_command, Richer.help_command, Richer.ping_command,
        Richer.stock_command, Richer.portfolio_command,
        Richer.report_command;
      rewrite Hu; reflexivity.
  - left. unfold Richer.handle_message. rewrite Hu. reflexivity.
Qed.

(** Whatever updates arrive, as long as none comes from the authorized
    identity the richer variant's loop ends normally, everything it does
    is to reply with the denial text, and no request leaves the process. *)
Theorem strangers_cause_no_request
    (cfg : Richer.config) (w : world) (us : list update) :
  Forall (fun u => str_int (user_id u) <> Richer.CHAT_ID cfg) us ->
  returned (Richer.run_polling cfg w us) = Ok tt /\
  Forall (fun e => e = Reply Richer.denial None)
    (trace (Richer.run_polling cfg w us)) /\
  outbound (trace (Richer.run_polling cfg w us)) = [].
Proof.
  induction 1 as [| u us Hu _ IH]; [repeat split; constructor|].
  cbn [Richer.run_polling].
  destruct (Richer.run_polling cfg w us) as [r t].
  unfold returned, trace in IH. cbn [fst snd] in IH.
  destruct IH as (-> & Ht & Ho).
  destruct (stranger_update cfg w u Hu) as [-> | ->]; run;
    unfold returned, trace; cbn [fst snd]; repeat split; auto.
Qed.

(** One update of the simpler variant sends no request. *)
Lemma simpler_update_offline
    (str_update : update -> string) (cfg : Simpler.config) (u : update) :
  returned (Simpler.process_update str_update cfg u) = Ok tt /\
  outbound (trace (Simpler.process_update str_update cfg u)) = [].
Proof.
  unfold Simpler.process_update.
  destruct (command u) as [[name args]|].
  - cbn [Simpler.handler_for Simpler.command_handlers].
    repeat (match goal with
            | |- context [if (name =? ?s)%string then _ else _] =>
                destruct (name =? s)%string
            end); split; reflexivity.
  - unfold Simpler.handle_message.
    destruct (Simpler.denied cfg (user_id u)); split; reflexivity.
Qed.

(** The simpler variant's loop never sends a request and ends normally,
    whatever updates arrive and whoever sends them. *)
Theorem simpler_never_requests
    (str_update : update -> string) (cfg : Simpler.config) (us : list update) :
  returned (Simpler.run_polling str_update cfg us) = Ok tt /\
  outbound (trace (Simpler.run_polling str_update cfg us)) = [].
Proof.
  induction us as [| u us IH]; [split; reflexivity|].
  cbn [Simpler.run_polling].
  destruct (simpler_update_offline str_update cfg u) as (Hr & Ho).
  destruct IH as (Hr' & Ho').
  destruct (Simpler.process_update str_update cfg u) as [r t].
  destruct (Simpler.run_polling str_update cfg us) as [r' t'].
  unfold returned, trace in *. cbn [fst snd] in *. subst r r'.
  run. cbn [fst snd]. split; [reflexivity|].
  now rewrite outbound_app, Ho, Ho'.
Qed.

(** When the price or the previous close is missing the block shows no
    movement: whenever the quote is read, change is 0 and a rendered block
    carries the neutral marker and the change formatted from 0 (given that
    [0 < 0] is false for the numbers at hand). The quote is read whenever
    the percent computed from a change of 0 raises nothing; without a
    previous close that is always, and the percent is 0. *)
Theorem missing_field_is_flat
    (stock_code : string) (meta : list (string * pyval)) (p c : option num) :
  num_ltb (num_of_Z 0) (num_of_Z 0) = false ->
  lookup "regularMarketPrice" meta = option_map PNum p ->
  lookup "previousClose" meta = option_map PNum c ->
  p = None \/ c = None ->
  (forall q,
     Richer.quote_of_meta stock_code (PDict meta) = Ok q ->
     Richer.change q = num_of_Z 0 /\
     forall time block,
       Richer.render_quote q time = Ok block ->
       exists zero_text,
         num_fmt_signed2 (num_of_Z 0) = Ok zero_text /\
         contains ("⚪ 漲跌: " ++ zero_text ++ " (") block) /\
  (forall pc,
     Richer.spec_change_percent (num_of_Z 0) c = Ok pc ->
     exists q,
       Richer.quote_of_meta stock_code (PDict meta) = Ok q /\
       Richer.change_percent q = pc) /\
  (c = None ->
   exists q,
     Richer.quote_of_meta stock_code (PDict meta) = Ok q /\
     Richer.change_percent q = num_of_Z 0).
Proof.
  intros Hlt Hp Hc Hnone.
  pose proof (quote_of_meta_fields stock_code meta p c Hp Hc) as Hq.
  assert (E : Richer.spec_change p c = Ok (num_of_Z 0))
    by (destruct Hnone as [-> | ->]; [| destruct p]; reflexivity).
  rewrite E in Hq. cbn [rbind] in Hq. rewrite Hq. clear Hq.
  split; [| split].
  - intros q Hq.
    destruct (Richer.spec_change_percent (num_of_Z 0) c) as [pc|];
      [cbn [rbind] in Hq | discriminate].
    injection Hq as <-. cbn [Richer.change]. split; [reflexivity|].
    intros time block Hb.
    destruct (render_quote_lines _ _ _ Hb) as (ct & pt & Hct & _ & ->).
    cbn [Richer.change] in *. exists ct. split; [exact Hct|].
    unfold Richer.change_emoji. rewrite Hlt.
    eapply contains_unlines; [do 5 right; left; reflexivity|].
    exists "". eexists. rewrite !append_assoc. reflexivity.
  - intros pc Hpc. rewrite Hpc. cbn [rbind]. eexists.
    split; reflexivity.
  - intros ->. cbn [Richer.spec_change_percent rbind]. eexists.
    split; reflexivity.
Qed.

(** A price that is there but is JSON null is not taken for a missing one:
    with a numeric previous close the subtraction raises [TypeError] and
    the caller returns the query-failed text with that message, no block. *)
Theorem null_price_fails
    (w : world) (stock_code : string) (resp : response) (data : pyval)
    (meta : list (string * pyval)) (y : num) :
  get w (Richer.quote_url stock_code) = Ok resp ->
  status_code resp = 200 ->
  json resp = Ok data ->
  Richer.quote_meta data = Ok (PDict meta) ->
  lookup "regularMarketPrice" meta = Some PNone ->
  lookup "previousClose" meta = Some (PNum y) ->
  let message := "unsupported operand type(s) for -: 'NoneType' and '"
                 ++ num_type y ++ "'" in
  Richer.get_stock_price w stock_code
  = (Ok ("❌ 查詢失敗: " ++ message),
     [Get (Richer.quote_url stock_code);
      Log "ERROR" ("股價查詢錯誤: " ++ message)]).
Proof.
  intros Hg Hs Hj Hm Hp Hc. cbv zeta.
  pose proof (get_stock_price_cases w stock_code) as E. cbv zeta in E.
  rewrite E, Hg, Hs, Hj. clear E. cbn [Z.eqb Pos.eqb].
  unfold Richer.read_quote. rewrite Hm. cbn [rbind].
  unfold Richer.quote_of_meta. cbn [py_get]. rewrite Hp, Hc.
  cbn [rbind py_ne_str andb]. reflexivity.
Qed.

(** A 200 payload whose [chart.result] is an empty list, or JSON null as
    the endpoint sends it with an error, has no first element: indexing
    raises and the caller returns the query-failed text with the
    exception's message. *)
Theorem empty_result_fails
    (w : world) (stock_code : string) (resp : response)
    (d chart : list (string * pyval)) (r : pyval) :
  get w (Richer.quote_url stock_code) = Ok resp ->
  status_code resp = 200 ->
  json resp = Ok (PDict d) ->
  lookup "chart" d = Some (PDict chart) ->
  lookup "result" chart = Some r ->
  (r = PList [] ->
   returned (Richer.get_stock_price w stock_code)
   = Ok "❌ 查詢失敗: list index out of range") /\
  (r = PNone ->
   returned (Richer.get_stock_price w stock_code)
   = Ok "❌ 查詢失敗: 'NoneType' object is not subscriptable").
Proof.
  intros Hg Hs Hj Hd Hc.
  pose proof (get_stock_price_cases w stock_code) as E. cbv zeta in E.
  rewrite E, Hg, Hs, Hj. clear E. cbn [Z.eqb Pos.eqb].
  unfold Richer.read_quote, Richer.quote_meta. cbn [py_get].
  rewrite Hd. cbn [rbind py_get]. rewrite Hc. cbn [rbind].
  split; intros ->; reflexivity.
Qed.

(** The clock enters the block in one place only: either the formatting
    of the quote raises, whatever the time, or the block is a text fixed by
    the quote, then the time, then a newline. Two renderings of one quote
    differ in the time and nowhere else. *)
Theorem render_quote_time_last (q : Richer.quote) :
  (exists head, forall time,
     Richer.render_quote q time = Ok (head ++ time ++ nl)) \/
  (exists e, forall time, Richer.render_quote q time = Raise e).
Proof.
  unfold Richer.render_quote.
  destruct (num_fmt_signed2 (Richer.change q)) as [ct | e]; cbn [rbind];
    [| right; exists e; reflexivity].
  destruct (num_fmt_signed2 (Richer.change_percent q)) as [pt | e];
    cbn [rbind]; [| right; exists e; reflexivity].
  left. eexists. intros time. f_equal.
  cbn [unlines]. rewrite append_nil_r.
  repeat rewrite <- append_assoc. reflexivity.
Qed.

End Extra2.

(** ** Evaluation at concrete inputs *)

#[local] Existing Instance Exact.number.
#[local] Existing Instance Exact.runtime.

(** Price 600.0 against a previous close of 590.0: up 10.00, 1.69 percent. *)
Example quote_600_590 :
  Richer.get_stock_price Sample.w_full "2330.TW"
  = (Ok (unlines [
           "";
           "📊 **2330.TW** 即時資訊";
           "";
           "💰 目前價格: 600.0 TWD";
           "📉 昨日收盤: 590.0 TWD";
           "🟢 漲跌: +10.00 (+1.69%)";
           "🕐 更新時間: 2026-01-02 03:04:05";
           "" ]),
     [Get "https://query1.finance.yahoo.com/v8/finance/chart/2330.TW"]).
Proof. reflexivity. Qed.

(** A previous close of 0: the percent is 0 and nothing is divided. *)
Example quote_zero_close :
  Richer.get_stock_price Sample.w_zero_close "X"
  = (Ok (unlines [
           "";
           "📊 **X** 即時資訊";
           "";
           "💰 目前價格: 600.0 TWD";
           "📉 昨日收盤: 0 TWD";
           "🟢 漲跌: +600.00 (+0.00%)";
           "🕐 更新時間: 2026-01-02 03:04:05";
           "" ]),
     [Get "https://query1.finance.yahoo.com/v8/finance/chart/X"]).
Proof. reflexivity. Qed.

Example quote_404 :
  Richer.get_stock_price Sample.w_404 "AAPL"
  = (Ok "❌ 無法取得 AAPL 的股價資訊（HTTP 404）",
     [Get "https://query1.finance.yahoo.com/v8/finance/chart/AAPL"]).
Proof. reflexivity. Qed.

Example owner_is_answered :
  returned (Richer.call_nebula_api Sample.cfg Sample.w_full "hello")
  = Ok (PStr "hi").
Proof. reflexivity. Qed.

(** C1, as stated, fails: the simpler variant's [/start] answers a sender
    who is not the configured identity with the welcome text. *)
Lemma simpler_start_answers_stranger :
  Simpler.CHAT_ID Sample.scfg = Some "42" /\
  str_int (user_id Sample.stranger_start) <> "42" /\
  Simpler.start_command Sample.scfg Sample.stranger_start
    = (Ok tt, [Reply Simpler.welcome_message Simpler.Markdown]) /\
  Simpler.start_command Sample.scfg Sample.stranger_start
    <> (Ok tt, [Reply Simpler.denial None]) /\
  Simpler.start_command Sample.scfg Sample.stranger_start
    <> (Ok tt, [Reply Richer.denial None]).
Proof.
  split; [reflexivity|]. split; [vm_compute; discriminate|].
  split; [reflexivity|].
  unfold Simpler.start_command, reply_text, emit, Simpler.Markdown.
  split; congruence.
Qed.

(** C5, as stated, fails: status 201 is a 2xx status, the credential is
    there and the transport raised nothing, yet the caller returns the
    failure sentinel. *)
Lemma status_201_is_failure :
  is_2xx 201 = true /\
  Richer.NEBULA_API_KEY Sample.cfg <> "" /\
  post Sample.w_201 (Richer.completion_url Sample.cfg)
    (Richer.completion_headers Sample.cfg)
    (Richer.completion_request "hello") = Exact.status_only 201 /\
  returned (Richer.complete Sample.cfg Sample.w_201 "hello")
    = Ok (Richer.HttpFailure 201) /\
  Richer.is_failure (Richer.HttpFailure 201) = true /\
  returned (Richer.call_nebula_api Sample.cfg Sample.w_201 "hello")
    = Ok (PStr "❌ API 呼叫失敗 (HTTP 201)").
Proof.
  split; [reflexivity|]. split; [discriminate|].
  repeat split; reflexivity.
Qed.

Lemma unauthorized_sender_denied_witness :
  str_int (user_id Sample.stranger_text) <> Richer.CHAT_ID Sample.cfg /\
  Simpler.CHAT_ID Sample.scfg = Some "42" /\
  Richer.handle_message Sample.cfg Sample.w_full Sample.stranger_text []
    = (Ok tt, [Reply Richer.denial None]) /\
  Simpler.handle_message Sample.scfg Sample.stranger_text
    = (Ok tt, [Reply Simpler.denial None]).
Proof.
  assert (H1 : str_int (user_id Sample.stranger_text) <> Richer.CHAT_ID Sample.cfg)
    by (vm_compute; discriminate).
  assert (H2 : "42" <> "") by discriminate.
  assert (H3 : str_int (user_id Sample.stranger_text) <> "42")
    by (vm_compute; discriminate).
  pose proof (unauthorized_sender_denied Sample.cfg Sample.w_full Sample.scfg
                "42" Sample.stranger_text [] H1 eq_refl H2 H3) as (Hr & Hs & _).
  split; [exact H1|]. split; [reflexivity|].
  split; [exact (proj1 (Forall_inv Hr)) | exact Hs].
Defined.

Lemma unconfigured_identity_witness :
  truthy (Sample.env_token_only "TELEGRAM_CHAT_ID") = false /\
  truthy (Simpler.CHAT_ID Sample.scfg_open) = false /\
  (exists msg,
     Richer.main Sample.env_token_only Sample.w_full
       [Sample.owner_text; Sample.stranger_text]
     = (Exit 1, [Log "ERROR" msg])) /\
  Simpler.handle_message Sample.scfg_open Sample.stranger_text
    = (Ok tt,
       [Log "INFO" "收到訊息: hello (用戶: 999)";
        Reply (Simpler.echo "hello") None]).
Proof.
  pose proof (unconfigured_identity Sample.env_token_only Sample.w_full
                [Sample.owner_text; Sample.stranger_text]
                Sample.scfg_open Sample.stranger_text eq_refl eq_refl)
    as (Hr & _ & _ & Hs).
  split; [reflexivity|]. split; [reflexivity|].
  split; [exact Hr | exact Hs].
Defined.



Lemma quote_defaults_witness :
  lookup "currency" Sample.meta_bare = None /\
  lookup "symbol" Sample.meta_bare = None /\
  exists q block,
    Richer.quote_of_meta "2330.TW" (PDict Sample.meta_bare) = Ok q /\
    Richer.render_quote q (now Sample.w_bare) = Ok block /\
    Richer.currency q = PStr "TWD" /\
    Richer.symbol q = PStr "2330.TW" /\
    contains "📊 **2330.TW** 即時資訊" block.
Proof.
  split; [reflexivity|]. split; [reflexivity|].
  eexists. eexists. split; [reflexivity|]. split; [reflexivity|].
  destruct (quote_defaults Sample.w_bare "2330.TW"
              {| status_code := 200; text := "";
                 json := Ok (Exact.chart Sample.meta_bare) |}
              (Exact.chart Sample.meta_bare) Sample.meta_bare _ _
              eq_refl eq_refl eq_refl eq_refl eq_refl eq_refl)
    as (_ & Hc & Hs).
  split; [exact (proj1 (Hc eq_refl))|].
  split; [exact (proj1 (Hs eq_refl)) | exact (proj2 (Hs eq_refl))].
Defined.

Lemma call_nebula_api_without_key_witness :
  Richer.NEBULA_API_KEY Sample.cfg_without_key = "" /\
  Richer.call_nebula_api Sample.cfg_without_key Sample.w_full "hello"
    = (Ok (PStr Richer.advisory), []).
Proof.
  split; [reflexivity|].
  exact (proj1 (call_nebula_api_without_key Sample.cfg_without_key
                  Sample.w_full "hello" eq_refl)).
Defined.

Lemma empty_choices_not_defaulted_witness :
  Richer.NEBULA_API_KEY Sample.cfg <> "" /\
  json {| status_code := 200; text := "";
          json := Ok (PDict [("choices", PList [])]) |}
    = Ok (PDict [("choices", PList [])]) /\
  returned (Richer.call_nebula_api Sample.cfg Sample.w_empty_choices "hello")
    = Ok (PStr "❌ 發生錯誤: list index out of range").
Proof.
  assert (Hk : Richer.NEBULA_API_KEY Sample.cfg <> "") by discriminate.
  split; [exact Hk|]. split; [reflexivity|].
  exact (proj1 (empty_choices_not_defaulted Sample.cfg Sample.w_empty_choices
                  "hello" _ Hk eq_refl eq_refl eq_refl)).
Defined.

Lemma stock_command_authorized_witness :
  str_int (user_id Sample.owner_stock) = Richer.CHAT_ID Sample.cfg /\
  Richer.stock_command Sample.cfg Sample.w_full Sample.owner_stock []
    = (Ok tt, [Reply Richer.stock_usage None]) /\
  outbound (trace (Richer.stock_command Sample.cfg Sample.w_full
                     Sample.owner_stock ["2330.tw"]))
    = [Get "https://query1.finance.yahoo.com/v8/finance/chart/2330.TW"].
Proof.
  pose proof (stock_command_authorized Sample.cfg Sample.w_full
                Sample.owner_stock eq_refl) as (Hu & _ & Ha).
  split; [reflexivity|]. split; [exact Hu|].
  destruct (Ha "2330.tw" []) as (result & logs & _ & _ & Ho).
  exact Ho.
Defined.

Lemma simpler_echo_witness :
  Simpler.denied Sample.scfg (user_id Sample.owner_text) = false /\
  Simpler.handle_message Sample.scfg Sample.owner_text
    = (Ok tt,
       [Log "INFO" "收到訊息: hello (用戶: 42)";
        Reply (Simpler.echo "hello") None]) /\
  contains "hello" (Simpler.echo "hello").
Proof.
  pose proof (simpler_echo Sample.scfg Sample.owner_text eq_refl)
    as (He & Hc & _).
  split; [reflexivity|]. split; [exact He | exact Hc].
Defined.

Lemma call_nebula_api_one_request_witness :
  Richer.NEBULA_API_KEY Sample.cfg <> "" /\
  outbound (trace (Richer.call_nebula_api Sample.cfg Sample.w_404 "hello"))
  = [Post "https://api.nebula.gg/v1/chat/completions"
       [("Authorization", "Bearer secret");
        ("Content-Type", "application/json")]
       (Richer.completion_request "hello")].
Proof.
  assert (Hk : Richer.NEBULA_API_KEY Sample.cfg <> "") by discriminate.
  split; [exact Hk|].
  exact (call_nebula_api_one_request Sample.cfg Sample.w_404 "hello" Hk).
Defined.

Lemma handle_message_authorized_witness :
  str_int (user_id Sample.owner_text) = Richer.CHAT_ID Sample.cfg_without_key /\
  outbound (trace (Richer.handle_message Sample.cfg_without_key Sample.w_full
                     Sample.owner_text [])) = [] /\
  outbound (trace (Richer.handle_message Sample.cfg Sample.w_full
                     Sample.owner_text []))
  = [Post "https://api.nebula.gg/v1/chat/completions"
       [("Authorization", "Bearer secret");
        ("Content-Type", "application/json")]
       (Richer.completion_request "hello")].
Proof.
  split; [reflexivity|]. split.
  - destruct (handle_message_authorized Sample.cfg_without_key Sample.w_full
                Sample.owner_text [] eq_refl) as (c & calls & _ & _ & Ho).
    exact Ho.
  - destruct (handle_message_authorized Sample.cfg Sample.w_full
                Sample.owner_text [] eq_refl) as (c & calls & _ & _ & Ho).
    exact Ho.
Defined.

Lemma ping_reports_credential_witness :
  str_int (user_id Sample.owner_text) = Richer.CHAT_ID Sample.cfg /\
  Richer.NEBULA_API_KEY Sample.cfg <> "" /\
  exists text,
    Richer.ping_command Sample.cfg Sample.w_full Sample.owner_text []
      = (Ok tt, [Reply text None]) /\
    contains "🔗 連接: Nebula API ✅" text.
Proof.
  assert (Hk : Richer.NEBULA_API_KEY Sample.cfg <> "") by discriminate.
  split; [reflexivity|]. split; [exact Hk|].
  destruct (ping_reports_credential Sample.cfg Sample.w_full
              Sample.owner_text [] eq_refl) as (text & He & _ & _ & Hc).
  exists text. split; [exact He | exact (Hc Hk)].
Defined.

Lemma richer_loaded_config_complete_witness :
  exists cfg t,
    Richer.load Sample.env_full = (Loaded cfg, t) /\
    Richer.CHAT_ID cfg <> "" /\
    Richer.NEBULA_API_KEY cfg = "" /\
    Richer.NEBULA_API_URL cfg = "https://api.nebula.gg".
Proof.
  eexists. eexists. split; [reflexivity|].
  destruct (richer_loaded_config_complete Sample.env_full _ _ eq_refl)
    as (_ & _ & _ & Hc & Hk & Hu & _).
  split; [exact Hc|]. split; [exact (Hk eq_refl) | exact (Hu eq_refl)].
Defined.

Lemma strangers_cause_no_request_witness :
  Forall (fun u => str_int (user_id u) <> Richer.CHAT_ID Sample.cfg)
    [Sample.stranger_start; Sample.stranger_text] /\
  trace (Richer.run_polling Sample.cfg Sample.w_full
           [Sample.stranger_start; Sample.stranger_text])
  = [Reply Richer.denial None; Reply Richer.denial None] /\
  outbound (trace (Richer.run_polling Sample.cfg Sample.w_full
                     [Sample.stranger_start; Sample.stranger_text])) = [].
Proof.
  assert (H : Forall (fun u => str_int (user_id u) <> Richer.CHAT_ID Sample.cfg)
                [Sample.stranger_start; Sample.stranger_text])
    by (repeat constructor; vm_compute; discriminate).
  split; [exact H|]. split; [reflexivity|].
  exact (proj2 (proj2 (strangers_cause_no_request Sample.cfg Sample.w_full
                         _ H))).
Defined.

Lemma missing_field_is_flat_witness :
  num_ltb (num_of_Z 0) (num_of_Z 0) = false /\
  lookup "previousClose" Sample.meta_bare = option_map PNum None /\
  exists q,
    Richer.quote_of_meta "2330.TW" (PDict Sample.meta_bare) = Ok q /\
    Richer.change q = Exact.EInt 0 /\
    Richer.change_percent q = Exact.EInt 0.
Proof.
  split; [reflexivity|]. split; [reflexivity|].
  destruct (missing_field_is_flat "2330.TW" Sample.meta_bare
              (Some (Exact.EFloat (600 # 1))) None
              eq_refl eq_refl eq_refl (or_intror eq_refl))
    as (Hall & _ & Hnone).
  destruct (Hnone eq_refl) as (q & Hq & Hpc).
  exists q. split; [exact Hq|].
  split; [exact (proj1 (Hall q Hq)) | exact Hpc].
Defined.

Lemma null_price_fails_witness :
  lookup "regularMarketPrice" Sample.meta_null_price = Some PNone /\
  Richer.get_stock_price Sample.w_null_price "X"
  = (Ok "❌ 查詢失敗: unsupported operand type(s) for -: 'NoneType' and 'float'",
     [Get "https://query1.finance.yahoo.com/v8/finance/chart/X";
      Log "ERROR"
        "股價查詢錯誤: unsupported operand type(s) for -: 'NoneType' and 'float'"]).
Proof.
  split; [reflexivity|].
  exact (null_price_fails Sample.w_null_price "X"
           {| status_code := 200; text := "";
              json := Ok (Exact.chart Sample.meta_null_price) |}
           (Exact.chart Sample.meta_null_price) Sample.meta_null_price
           (Exact.EFloat (590 # 1))
           eq_refl eq_refl eq_refl eq_refl eq_refl eq_refl).
Defined.

Lemma empty_result_fails_witness :
  json {| status_code := 200; text := ""; json := Ok Sample.no_result |}
    = Ok Sample.no_result /\
  returned (Richer.get_stock_price Sample.w_no_result "NOPE")
  = Ok "❌ 查詢失敗: 'NoneType' object is not subscriptable".
Proof.
  split; [reflexivity|].
  exact (proj2 (empty_result_fails Sample.w_no_result "NOPE"
                  {| status_code := 200; text := "";
                     json := Ok Sample.no_result |}
                  _ _ PNone eq_refl eq_refl eq_refl eq_refl eq_refl)
           eq_refl).
Defined.
